(** * Container.ts: the orchestrator of vscode-reveal

    A shallow embedding of [src/Container.ts].  The class [Container] owns
    the document binding ([editorContext]), the base configuration, the
    render surface ([webView]) and the export session
    ([exportPromise], [endDebounce]); it reacts to editor-host events and
    drives its collaborators (server, status bar, slide explorer).

    Mutable fields become a record that every method threads; calls on
    collaborators whose code lives in other files are recorded, in order, in
    a call trace; promises live in a heap indexed by reference, so that
    identity of a future is equality of references. *)

From Stdlib Require Import ZArith NArith List String Ascii Lia Bool.
From stdpp Require Import base option list gmap strings pretty.

Local Open Scope string_scope.
Local Open Scope list_scope.

(** ** JavaScript values, truthiness, template literals *)

Module JS.

Inductive value :=
| Undefined
| Null
| Bool (b : bool)
| Number (z : Z)
| Str (s : string).

(** [ToBoolean]: the test of [c ? a : b] and [if (c)]. *)
Definition truthy (v : value) : bool :=
  match v with
  | Undefined | Null => false
  | Bool b => b
  | Number z => negb (z =? 0)%Z
  | Str s => negb (String.eqb s EmptyString)
  end.

(** An object used as a record of options: own keys to values. *)
Abbreviation object := (gmap string value).

(** [obj.key]: a missing property reads as [undefined]. *)
Definition get (key : string) (obj : object) : value :=
  default Undefined (obj !! key).

(** [{ ...a, ...b }]: the keys of [a], then those of [b] written over
    them.  The union of stdpp is left-biased. *)
Definition spread (a b : object) : object := b ∪ a.

(** [`${x}`] for [x : string | null]. *)
Definition template (x : option string) : string :=
  match x with
  | Some s => s
  | None => "null"
  end.

(** [`${n}`] for an integral number: its decimal digits. *)
Definition template_int (z : Z) : string := pretty z.
Definition template_nat (n : N) : string := pretty n.

(** *** Promises: a heap of settled or pending futures *)

Inductive promise :=
| Pending
| Fulfilled (v : value)
| Rejected (reason : value).

(** A reference to a promise is its index in the heap. *)
Abbreviation ref := nat (only parsing).

(** [new Promise(executor)]: the fresh reference and the grown heap. *)
Definition new_promise (heap : list promise) : ref * list promise :=
  (length heap, heap ++ [Pending]).

(** The resolving functions of a promise act once: a settled promise
    ignores them. *)
Definition settle (p : ref) (s : promise) (heap : list promise) : list promise :=
  match heap !! p with
  | Some Pending => <[p := s]> heap
  | _ => heap
  end.

Definition resolve (p : ref) (v : value) := settle p (Fulfilled v).
Definition reject (p : ref) (reason : value) := settle p (Rejected reason).

End JS.

Abbreviation Configuration := (gmap string JS.value).

(** ** lodash: [debounce(fn, wait)] with its default (trailing) edge

    A debounced function remembers the time of its last call; the timer it
    keeps is armed from the first call on, and the wrapped callback runs
    once [wait] milliseconds have passed since the last call.  A freshly
    made debounced function has no timer.  The Container makes one
    debounced function per export session and drops it in the very callback
    that ends the session, so the field [endDebounce] always holds the one
    debounced function whose timer may be running. *)

Module Lodash.

Record debounced := { wait : N; lastCallTime : option N }.

Definition debounce (wait : N) : debounced :=
  {| wait := wait; lastCallTime := None |}.

(** Calling the debounced function at [time] (re)starts the window. *)
Definition call (time : N) (d : debounced) : debounced :=
  {| wait := wait d; lastCallTime := Some time |}.

(** The trailing edge is reached at [time]. *)
Definition due (time : N) (d : debounced) : bool :=
  match lastCallTime d with
  | Some t => (t + wait d <=? time)%N
  | None => false
  end.

End Lodash.

(** ** The editor host (vscode) *)

Module Vscode.

Record Position := { line : nat; character : nat }.
Record Selection := { anchor : Position; active : Position }.
Record TextDocument := { languageId : string }.

(** Editors and webviews are host objects, compared by identity. *)
Record TextEditor := { editorId : nat; document : TextDocument }.
Abbreviation Webview := nat (only parsing).

Definition same_editor (a b : TextEditor) : bool :=
  Nat.eqb (editorId a) (editorId b).

Record TextEditorSelectionChangeEvent :=
  { textEditor : TextEditor; selections : list Selection }.

Record ConfigurationChangeEvent :=
  { affectsConfiguration : string → bool }.

End Vscode.

(** ** Collaborators of the Container, through their interfaces *)

Record ISlide := { title : string; text : string }.

Module SlidePosition.
Record t := { horizontal : Z; vertical : Z }.
End SlidePosition.

Module EditorContext.

(** What the Container reads from a document binding. *)
Record t := {
  editor : Vscode.TextEditor;
  dirname : string;
  slideContent : string;
  slides : list ISlide;
  slideCount : nat;
  hasfrontConfig : bool;
  documentOptions : Configuration;
  position : SlidePosition.t;
  isMarkdownFile : bool
}.

End EditorContext.

Module RevealServer.

(** What the Container reads from the backing server. *)
Record t := { isListening : bool; uri : option string }.

End RevealServer.

(** The methods of the collaborators that change them, and the constants
    imported from other files: their code is not part of [Container.ts], so
    the Container is verified for every behaviour they may have. The
    accessors the server is constructed with ([isInExport] among them) are
    read while it serves a request, in a turn of the event loop of its own,
    not during [start], [stop] or [refresh]. *)
Class Collaborators := {
  extensionId : string;
  SHOW_REVEALJS : string;
  getDocumentOptions : Configuration → Configuration;
  path_join : string → string → string;
  (* class EditorContext *)
  newEditorContext : Vscode.TextEditor → Configuration → EditorContext.t;
  updatePosition : Vscode.Position → EditorContext.t → EditorContext.t;
  refresh : EditorContext.t → EditorContext.t;
  editorGoToSlide : Z → Z → EditorContext.t → EditorContext.t;
  (* class RevealServer *)
  newRevealServer : RevealServer.t;
  start : RevealServer.t → RevealServer.t;
  stop : RevealServer.t → RevealServer.t;
  refreshServer : RevealServer.t → RevealServer.t
}.

(** Calls that leave the Container, in the order they are made. *)
Inductive Call :=
| ServerStart
| ServerRefresh
| ServerStop
| StatusBarUpdate
| SlidesExplorerRegister
| SlidesExplorerUpdate
| EditorUpdatePosition (p : Vscode.Position)
| EditorRefresh
| EditorGoToSlide (topindex verticalIndex : Z)
| WebviewSetHtml (w : Vscode.Webview) (html : string)
| ExecuteCommand (command : string)
| ConsoleLog (message : string).

(** The part of the world the Container acts on but does not own. *)
Record Host := {
  promises : list JS.promise;   (* the promise heap *)
  now : N;                      (* Date.now(), epoch milliseconds *)
  settings : Configuration;     (* what loadConfiguration() returns *)
  calls : list Call             (* the call trace, oldest first *)
}.

Definition with_promises (v : list JS.promise) (h : Host) : Host :=
  {| promises := v; now := now h; settings := settings h; calls := calls h |}.

Definition with_now (v : N) (h : Host) : Host :=
  {| promises := promises h; now := v; settings := settings h; calls := calls h |}.

Definition with_settings (v : Configuration) (h : Host) : Host :=
  {| promises := promises h; now := now h; settings := v; calls := calls h |}.

Definition with_calls (v : list Call) (h : Host) : Host :=
  {| promises := promises h; now := now h; settings := settings h; calls := v |}.

(** The content a webview shows: the last one written to it. *)
Fixpoint html_of (w : Vscode.Webview) (trace : list Call) : option string :=
  match trace with
  | [] => None
  | k :: rest =>
    match html_of w rest with
    | Some later => Some later
    | None =>
      match k with
      | WebviewSetHtml w' html => if Nat.eqb w w' then Some html else None
      | _ => None
      end
    end
  end.

(** ** class Container *)

Module Container.

(** The fields of the class, and the host it runs in. *)
Record t := {
  server : RevealServer.t;
  editorContext : option EditorContext.t;
  _configuration : Configuration;
  webView : option Vscode.Webview;
  exportPromiseResolve : option JS.ref;
  exportPromiseReject : option JS.ref;
  endDebounce : option Lodash.debounced;
  exportPromise : option JS.ref;
  host : Host
}.

Definition with_server (v : RevealServer.t) (c : t) : t :=
  {| server := v; editorContext := editorContext c;
     _configuration := _configuration c; webView := webView c;
     exportPromiseResolve := exportPromiseResolve c;
     exportPromiseReject := exportPromiseReject c;
     endDebounce := endDebounce c; exportPromise := exportPromise c;
     host := host c |}.

Definition with_editorContext (v : option EditorContext.t) (c : t) : t :=
  {| server := server c; editorContext := v;
     _configuration := _configuration c; webView := webView c;
     exportPromiseResolve := exportPromiseResolve c;
     exportPromiseReject := exportPromiseReject c;
     endDebounce := endDebounce c; exportPromise := exportPromise c;
     host := host c |}.

Definition with_configuration (v : Configuration) (c : t) : t :=
  {| server := server c; editorContext := editorContext c;
     _configuration := v; webView := webView c;
     exportPromiseResolve := exportPromiseResolve c;
     exportPromiseReject := exportPromiseReject c;
     endDebounce := endDebounce c; exportPromise := exportPromise c;
     host := host c |}.

Definition with_webView (v : option Vscode.Webview) (c : t) : t :=
  {| server := server c; editorContext := editorContext c;
     _configuration := _configuration c; webView := v;
     exportPromiseResolve := exportPromiseResolve c;
     exportPromiseReject := exportPromiseReject c;
     endDebounce := endDebounce c; exportPromise := exportPromise c;
     host := host c |}.

Definition with_exportPromiseResolve (v : option JS.ref) (c : t) : t :=
  {| server := server c; editorContext := editorContext c;
     _configuration := _configuration c; webView := webView c;
     exportPromiseResolve := v;
     exportPromiseReject := exportPromiseReject c;
     endDebounce := endDebounce c; exportPromise := exportPromise c;
     host := host c |}.

Definition with_exportPromiseReject (v : option JS.ref) (c : t) : t :=
  {| server := server c; editorContext := editorContext c;
     _configuration := _configuration c; webView := webView c;
     exportPromiseResolve := exportPromiseResolve c;
     exportPromiseReject := v;
     endDebounce := endDebounce c; exportPromise := exportPromise c;
     host := host c |}.

Definition with_endDebounce (v : option Lodash.debounced) (c : t) : t :=
  {| server := server c; editorContext := editorContext c;
     _configuration := _configuration c; webView := webView c;
     exportPromiseResolve := exportPromiseResolve c;
     exportPromiseReject := exportPromiseReject c;
     endDebounce := v; exportPromise := exportPromise c;
     host := host c |}.

Definition with_exportPromise (v : option JS.ref) (c : t) : t :=
  {| server := server c; editorContext := editorContext c;
     _configuration := _configuration c; webView := webView c;
     exportPromiseResolve := exportPromiseResolve c;
     exportPromiseReject := exportPromiseReject c;
     endDebounce := endDebounce c; exportPromise := v;
     host := host c |}.

Definition with_host (v : Host) (c : t) : t :=
  {| server := server c; editorContext := editorContext c;
     _configuration := _configuration c; webView := webView c;
     exportPromiseResolve := exportPromiseResolve c;
     exportPromiseReject := exportPromiseReject c;
     endDebounce := endDebounce c; exportPromise := exportPromise c;
     host := v |}.

(** Record a call on a collaborator. *)
Definition log (k : Call) (c : t) : t :=
  with_host (with_calls (calls (host c) ++ [k]) (host c)) c.

Definition newline : string := String "010"%char EmptyString.
Definition quote : string := String "034"%char EmptyString.

(** The markup [refreshWebView] writes, around the frame's address. *)
Definition frame_html (src : string) : string :=
  "<style>html, body, iframe { height: 100% }</style>" +:+ newline +:+
  "      <iframe src=" +:+ quote +:+ src +:+ quote +:+
  " frameBorder=" +:+ quote +:+ "0" +:+ quote +:+
  " style=" +:+ quote +:+ "width: 100%; height: 100%" +:+ quote +:+ " />".

Section Methods.
Context `{Collaborators}.

Definition rootDir (c : t) : string :=
  match editorContext c with
  | Some ec => EditorContext.dirname ec
  | None => EmptyString
  end.

Definition slideContent (c : t) : option string :=
  match editorContext c with
  | Some ec => Some (EditorContext.slideContent ec)
  | None => None
  end.

Definition configuration (c : t) : Configuration :=
  match editorContext c with
  | Some ec =>
    if EditorContext.hasfrontConfig ec
    then JS.spread (_configuration c) (EditorContext.documentOptions ec)
    else _configuration c
  | None => _configuration c
  end.

Definition exportPath (c : t) : JS.value :=
  let p := JS.get "exportHTMLPath" (configuration c) in
  if JS.truthy p then p else JS.Str (path_join (rootDir c) "export").

Definition slides (c : t) : list ISlide :=
  match editorContext c with
  | None => []
  | Some ec => EditorContext.slides ec
  end.

Definition slideCount (c : t) : nat :=
  match editorContext c with
  | None => 0
  | Some ec => EditorContext.slideCount ec
  end.

Definition isMarkdownFile (c : t) : bool :=
  match editorContext c with
  | None => false
  | Some ec => EditorContext.isMarkdownFile ec
  end.

(** [!this.server.isListening || this.editorContext === null], tested left
    to right. *)
Definition getUri (withPosition : bool) (c : t) : option string :=
  if negb (RevealServer.isListening (server c)) then None
  else
    match editorContext c with
    | None => None
    | Some ec =>
      let serverUri := RevealServer.uri (server c) in
      let slidepos := EditorContext.position ec in
      Some (if withPosition
            then JS.template serverUri +:+ "#/" +:+
                 JS.template_int (SlidePosition.horizontal slidepos) +:+ "/" +:+
                 JS.template_int (SlidePosition.vertical slidepos) +:+ "/" +:+
                 JS.template_nat (now (host c))
            else JS.template serverUri)
    end.

Definition refreshWebView (view : option Vscode.Webview) (c : t) : t :=
  let c1 := match view with
            | Some v => with_webView (Some v) c
            | None => c
            end in
  match webView c1 with
  | Some w => log (WebviewSetHtml w (frame_html (JS.template (getUri true c1)))) c1
  | None => c1
  end.

Definition onDidChangeTextEditorSelection
    (event : Vscode.TextEditorSelectionChangeEvent) (c : t) : t :=
  match editorContext c with
  | None => c
  | Some ec =>
    if negb (Vscode.same_editor (Vscode.textEditor event) (EditorContext.editor ec))
       || Nat.eqb (length (Vscode.selections event)) 0
    then c
    else
      match Vscode.selections event with
      | [] => c (* selections[0] exists: the length was tested *)
      | first :: _ =>
        let end_ := Vscode.active first in
        let c1 := with_editorContext (Some (updatePosition end_ ec))
                    (log (EditorUpdatePosition end_) c) in
        let c2 := refreshWebView None c1 in
        let c3 := with_editorContext (option_map refresh (editorContext c2))
                    (log EditorRefresh c2) in
        let c4 := log StatusBarUpdate c3 in
        log SlidesExplorerUpdate c4
      end
  end.

Definition onDidChangeActiveTextEditor (editor : option Vscode.TextEditor) (c : t) : t :=
  let c1 :=
    match editor with
    | Some e =>
      if String.eqb (Vscode.languageId (Vscode.document e)) "markdown"
      then with_editorContext
             (Some (newEditorContext e (getDocumentOptions (configuration c)))) c
      else c
    | None => c
    end in
  let c2 := with_server (start (server c1)) (log ServerStart c1) in
  let c3 := with_server (refreshServer (server c2)) (log ServerRefresh c2) in
  let c4 := refreshWebView None c3 in
  let c5 := log StatusBarUpdate c4 in
  log SlidesExplorerUpdate c5.

Definition onDidChangeTextDocument (c : t) : t :=
  log (ConsoleLog "onDidChangeTextDocument") c.

Definition onDidSaveTextDocument (c : t) : t :=
  log (ConsoleLog "onDidSaveTextDocument") c.

Definition onDidCloseTextDocument (c : t) : t :=
  log (ConsoleLog "onDidCloseTextDocument") c.

Definition loadConfiguration (c : t) : Configuration := settings (host c).

Definition onDidChangeConfiguration (e : Vscode.ConfigurationChangeEvent) (c : t) : t :=
  if negb (Vscode.affectsConfiguration e extensionId) then c
  else with_configuration (loadConfiguration c) c.

Definition constructor (h : Host) : t :=
  let c := {| server := newRevealServer; editorContext := None;
              _configuration := settings h; webView := None;
              exportPromiseResolve := None; exportPromiseReject := None;
              endDebounce := None; exportPromise := None; host := h |} in
  log SlidesExplorerRegister (log StatusBarUpdate c).

(** The getter [isInExport]: its answer and the state it leaves. *)
Definition isInExport (c : t) : bool * t :=
  match exportPromise c with
  | None => (false, c)
  | Some _ =>
    let c1 := match endDebounce c with
              | Some d => with_endDebounce (Some (Lodash.call (now (host c)) d)) c
              | None => c
              end in
    (match exportPromise c1 with Some _ => true | None => false end, c1)
  end.

(** The function [startExport] hands to [debounce]. *)
Definition endDebounceCallback (c : t) : t :=
  match exportPromise c, exportPromiseResolve c with
  | Some _, Some r =>
    let c1 := with_host (with_promises
                (JS.resolve r (exportPath c) (promises (host c))) (host c)) c in
    with_endDebounce None (with_exportPromise None c1)
  | _, _ => c
  end.

Definition startExport (c : t) : option JS.ref * t :=
  let c1 :=
    match exportPromise c with
    | None =>
      let '(p, heap) := JS.new_promise (promises (host c)) in
      let c' := with_host (with_promises heap (host c)) c in
      let c' := with_exportPromiseResolve (Some p) c' in
      let c' := with_exportPromiseReject (Some p) c' in
      let c' := with_exportPromise (Some p) c' in
      with_endDebounce (Some (Lodash.debounce 800)) c'
    | Some _ => c
    end in
  let c2 := match webView c1 with
            | Some _ => refreshWebView None c1
            | None => log (ExecuteCommand SHOW_REVEALJS) c1
            end in
  (exportPromise c2, c2).

Definition goToSlide (topindex verticalIndex : Z) (c : t) : t :=
  let c1 := match editorContext c with
            | Some ec =>
              with_editorContext (Some (editorGoToSlide topindex verticalIndex ec))
                (log (EditorGoToSlide topindex verticalIndex) c)
            | None => c
            end in
  refreshWebView None c1.

Definition stopServer (c : t) : t :=
  log StatusBarUpdate (with_server (stop (server c)) (log ServerStop c)).

(** *** The event loop

    Time passes between two turns of the loop; a timer that has come due
    runs its callback in a turn of its own. *)
Definition elapse (dt : N) (c : t) : t :=
  let c1 := with_host (with_now (now (host c) + dt)%N (host c)) c in
  match endDebounce c1 with
  | Some d => if Lodash.due (now (host c1)) d then endDebounceCallback c1 else c1
  | None => c1
  end.

(** What can happen to a Container: the host's events, the calls of its
    public methods, the polls of the server, and what changes around it. *)
Inductive Event :=
| DidChangeTextEditorSelection (event : Vscode.TextEditorSelectionChangeEvent)
| DidChangeActiveTextEditor (editor : option Vscode.TextEditor)
| DidChangeTextDocument
| DidSaveTextDocument
| DidCloseTextDocument
| DidChangeConfiguration (e : Vscode.ConfigurationChangeEvent)
| CallStartExport
| CallIsInExport
| CallGoToSlide (topindex verticalIndex : Z)
| CallStopServer
| CallRefreshWebView (view : option Vscode.Webview)
| Elapse (dt : N)
| SettingsEdited (cfg : Configuration)
| ServerChanged (s : RevealServer.t).

Definition step (e : Event) (c : t) : t :=
  match e with
  | DidChangeTextEditorSelection event => onDidChangeTextEditorSelection event c
  | DidChangeActiveTextEditor editor => onDidChangeActiveTextEditor editor c
  | DidChangeTextDocument => onDidChangeTextDocument c
  | DidSaveTextDocument => onDidSaveTextDocument c
  | DidCloseTextDocument => onDidCloseTextDocument c
  | DidChangeConfiguration e => onDidChangeConfiguration e c
  | CallStartExport => snd (startExport c)
  | CallIsInExport => snd (isInExport c)
  | CallGoToSlide topindex verticalIndex => goToSlide topindex verticalIndex c
  | CallStopServer => stopServer c
  | CallRefreshWebView view => refreshWebView view c
  | Elapse dt => elapse dt c
  | SettingsEdited cfg => with_host (with_settings cfg (host c)) c
  | ServerChanged s => with_server s c
  end.

Definition run (es : list Event) (c : t) : t :=
  fold_left (fun acc e => step e acc) es c.

(** The host a Container is constructed in. *)
Definition boot (time : N) (cfg : Configuration) : Host :=
  {| promises := []; now := time; settings := cfg; calls := [] |}.

Inductive reachable : t → Prop :=
| reachable_new time cfg : reachable (constructor (boot time cfg))
| reachable_step e c : reachable c → reachable (step e c).

(** What one refresh of the render surface adds to the call trace. *)
Definition push (c : t) : list Call :=
  match webView c with
  | Some w => [WebviewSetHtml w (frame_html (JS.template (getUri true c)))]
  | None => []
  end.

(** The server polls [isInExport], letting [gap] milliseconds pass before
    each poll; the answers, and the state after the last poll. *)
Fixpoint poll_every (gaps : list N) (c : t) : list bool * t :=
  match gaps with
  | [] => ([], c)
  | gap :: rest =>
    let '(answer, c1) := isInExport (elapse gap c) in
    let '(answers, c2) := poll_every rest c1 in
    (answer :: answers, c2)
  end.

End Methods.

Arguments refreshWebView : simpl never.

(** [s] has the character [a] somewhere. *)
Fixpoint has_char (a : ascii) (s : string) : bool :=
  match s with
  | EmptyString => false
  | String b rest => Ascii.eqb a b || has_char a rest
  end.

(** The export session of a Container between two turns of the event loop:
    the fields of a session are set and cleared together, the promise of the
    session is the only pending one, its timer is not overdue, and no
    promise is rejected. *)
Record session_ok (c : t) : Prop := {
  ok_pending : ∀ p, exportPromise c = Some p →
    promises (host c) !! p = Some JS.Pending ∧
    exportPromiseResolve c = Some p ∧
    exportPromiseReject c = Some p ∧
    ∃ d, endDebounce c = Some d ∧ Lodash.wait d = 800%N ∧
         Lodash.due (now (host c)) d = false;
  ok_idle : exportPromise c = None → endDebounce c = None;
  ok_single : ∀ q, promises (host c) !! q = Some JS.Pending →
    exportPromise c = Some q;
  ok_settled : ∀ q s, promises (host c) !! q = Some s →
    s = JS.Pending ∨ ∃ v, s = JS.Fulfilled v
}.

(** The position fragment of the address, as the interface documents it:
    [#/<horizontal>/<vertical>/<epochMillis>], each part in decimal. *)
Definition uri_fragment (horizontal vertical : Z) (epochMillis : N) : string :=
  "#/" +:+ pretty horizontal +:+ "/" +:+ pretty vertical +:+ "/" +:+ pretty epochMillis.

(** The editor is one whose document is written in markdown. *)
Definition is_markdown (editor : option Vscode.TextEditor) : bool :=
  match editor with
  | Some e => String.eqb (Vscode.languageId (Vscode.document e)) "markdown"
  | None => false
  end.

(** The session on promise [p] is pending and was polled this very
    millisecond: its timer runs the full window from now. *)
Definition armed (p : JS.ref) (c : t) : Prop :=
  exportPromise c = Some p ∧
  exportPromiseResolve c = Some p ∧
  promises (host c) !! p = Some JS.Pending ∧
  endDebounce c =
    Some {| Lodash.wait := 800; Lodash.lastCallTime := Some (now (host c)) |}.

(** The session on promise [p] is pending, its debounced function was
    last called at [last], and its window is still open. *)
Definition pending_since (p : JS.ref) (last : N) (c : t) : Prop :=
  exportPromise c = Some p ∧
  exportPromiseResolve c = Some p ∧
  promises (host c) !! p = Some JS.Pending ∧
  endDebounce c =
    Some {| Lodash.wait := 800; Lodash.lastCallTime := Some last |} ∧
  (now (host c) < last + 800)%N.

(** The session on promise [p] is pending and its debounced function has
    not been called yet: no timer runs. *)
Definition unpolled (p : JS.ref) (c : t) : Prop :=
  exportPromise c = Some p ∧
  promises (host c) !! p = Some JS.Pending ∧
  endDebounce c = Some (Lodash.debounce 800).

(** The events that read or write the export session. *)
Definition touches_session (e : Event) : bool :=
  match e with
  | CallStartExport | CallIsInExport | Elapse _ => true
  | _ => false
  end.

Definition is_poll (e : Event) : bool :=
  match e with
  | CallIsInExport => true
  | _ => false
  end.

(** The time that passes during a list of events. *)
Fixpoint elapsed (es : list Event) : N :=
  match es with
  | [] => 0
  | Elapse dt :: rest => dt + elapsed rest
  | _ :: rest => elapsed rest
  end.

(** In the list of events, starting at [time] with the latest poll made at
    [last], the clock never gets 800 ms past the latest poll. *)
Fixpoint polled_in_time (last time : N) (es : list Event) : bool :=
  match es with
  | [] => true
  | Elapse dt :: rest =>
    (time + dt <? last + 800)%N && polled_in_time last (time + dt) rest
  | CallIsInExport :: rest => polled_in_time time time rest
  | _ :: rest => polled_in_time last time rest
  end.

(** [c'] has the export session, the promise heap and the clock of [c]. *)
Definition same_session (c c' : t) : Prop :=
  exportPromise c' = exportPromise c ∧
  exportPromiseResolve c' = exportPromiseResolve c ∧
  exportPromiseReject c' = exportPromiseReject c ∧
  endDebounce c' = endDebounce c ∧
  promises (host c') = promises (host c) ∧
  now (host c') = now (host c).

(** [c'] has the binding, the base configuration, the server and the render
    surface of [c]. *)
Definition same_document (c c' : t) : Prop :=
  editorContext c' = editorContext c ∧
  _configuration c' = _configuration c ∧
  server c' = server c ∧
  webView c' = webView c.

Definition is_bound (c : t) : bool :=
  match editorContext c with
  | Some _ => true
  | None => false
  end.

(** The one event that makes a binding: a markdown editor becomes active. *)
Definition binds (e : Event) : bool :=
  match e with
  | DidChangeActiveTextEditor editor => is_markdown editor
  | _ => false
  end.

(** The surface the Container holds after the event. *)
Definition surface_after (e : Event) (c : t) : option Vscode.Webview :=
  match e with
  | CallRefreshWebView (Some v) => Some v
  | _ => webView c
  end.

(** A call that writes a surface writes [surface]. *)
Definition writes_to (surface : option Vscode.Webview) (k : Call) : Prop :=
  match k with
  | WebviewSetHtml w _ => surface = Some w
  | _ => True
  end.

(** A call that writes a surface writes it the frame of no address. *)
Definition writes_null (k : Call) : Prop :=
  match k with
  | WebviewSetHtml _ html => html = frame_html "null"
  | _ => True
  end.

Section Bindings.
Context `{Collaborators}.

(** The binding the active-editor handler leaves. *)
Definition binding_after (editor : option Vscode.TextEditor) (c : t)
    : option EditorContext.t :=
  match editor with
  | Some e =>
    if is_markdown editor
    then Some (newEditorContext e (getDocumentOptions (configuration c)))
    else editorContext c
  | None => editorContext c
  end.

End Bindings.

(** How many times the slide explorer was registered. *)
Fixpoint registrations (trace : list Call) : nat :=
  match trace with
  | [] => 0
  | SlidesExplorerRegister :: rest => S (registrations rest)
  | _ :: rest => registrations rest
  end.

End Container.

(** ** A concrete set of collaborators

    A deck of five slides in [/talks], a server on a local port that
    listens once started, and a binding whose [goToSlide] stores the
    indices it is given. *)

Module Sample.

Definition deck : list ISlide :=
  [ {| title := "one"; text := "# one" |};
    {| title := "two"; text := "# two" |};
    {| title := "three"; text := "# three" |};
    {| title := "four"; text := "# four" |};
    {| title := "five"; text := "# five" |} ].

Definition bind (e : Vscode.TextEditor) (options : Configuration) : EditorContext.t :=
  {| EditorContext.editor := e;
     EditorContext.dirname := "/talks";
     EditorContext.slideContent := "# one";
     EditorContext.slides := deck;
     EditorContext.slideCount := 5;
     EditorContext.hasfrontConfig := false;
     EditorContext.documentOptions := options;
     EditorContext.position :=
       {| SlidePosition.horizontal := 0; SlidePosition.vertical := 0 |};
     EditorContext.isMarkdownFile := true |}.

Definition move (h v : Z) (ec : EditorContext.t) : EditorContext.t :=
  {| EditorContext.editor := EditorContext.editor ec;
     EditorContext.dirname := EditorContext.dirname ec;
     EditorContext.slideContent := EditorContext.slideContent ec;
     EditorContext.slides := EditorContext.slides ec;
     EditorContext.slideCount := EditorContext.slideCount ec;
     EditorContext.hasfrontConfig := EditorContext.hasfrontConfig ec;
     EditorContext.documentOptions := EditorContext.documentOptions ec;
     EditorContext.position :=
       {| SlidePosition.horizontal := h; SlidePosition.vertical := v |};
     EditorContext.isMarkdownFile := EditorContext.isMarkdownFile ec |}.

Definition listening : RevealServer.t :=
  {| RevealServer.isListening := true;
     RevealServer.uri := Some "http://localhost:8080/" |}.

Definition stopped : RevealServer.t :=
  {| RevealServer.isListening := false; RevealServer.uri := None |}.

Definition collaborators : Collaborators :=
  {| extensionId := "revealjs";
     SHOW_REVEALJS := "vscode-revealjs.showRevealJS";
     getDocumentOptions := fun cfg => cfg;
     path_join := fun dir name => dir +:+ "/" +:+ name;
     newEditorContext := bind;
     updatePosition := fun p ec => move (Z.of_nat (Vscode.line p)) 0 ec;
     refresh := fun ec => ec;
     editorGoToSlide := move;
     newRevealServer := stopped;
     start := fun _ => listening;
     stop := fun _ => stopped;
     refreshServer := fun s => s |}.

Definition deck_md : Vscode.TextEditor :=
  {| Vscode.editorId := 1; Vscode.document := {| Vscode.languageId := "markdown" |} |}.

Definition notes_txt : Vscode.TextEditor :=
  {| Vscode.editorId := 2; Vscode.document := {| Vscode.languageId := "plaintext" |} |}.

(** A new Container at time 1000 with empty settings. *)
Definition fresh : Container.t :=
  @Container.constructor collaborators (Container.boot 1000 ∅).

(** The same once the deck is the active editor. *)
Definition bound : Container.t :=
  @Container.step collaborators
    (Container.DidChangeActiveTextEditor (Some deck_md)) fresh.

(** The same with an export started, and after the server has polled it
    at once and then 100, 799 and 500 ms apart. *)
Definition exporting : Container.t :=
  @Container.step collaborators Container.CallStartExport bound.

(** The same once the server has polled the export, at time 1000. *)
Definition waiting : Container.t :=
  @Container.step collaborators Container.CallIsInExport exporting.

(** The deck bound and shown in webview 7. *)
Definition viewing : Container.t :=
  @Container.step collaborators (Container.CallRefreshWebView (Some 7%nat)) bound.

(** The cursor lands on line 3 of the deck. *)
Definition cursor_moved : Vscode.TextEditorSelectionChangeEvent :=
  {| Vscode.textEditor := deck_md;
     Vscode.selections :=
       [ {| Vscode.anchor := {| Vscode.line := 3; Vscode.character := 0 |};
            Vscode.active := {| Vscode.line := 3; Vscode.character := 4 |} |} ] |}.

(** A deck whose front matter asks for the night theme, under settings
    that ask for the black one. *)
Definition themed_deck : EditorContext.t :=
  {| EditorContext.editor := deck_md;
     EditorContext.dirname := "/talks";
     EditorContext.slideContent := "# one";
     EditorContext.slides := deck;
     EditorContext.slideCount := 5;
     EditorContext.hasfrontConfig := true;
     EditorContext.documentOptions := {[ "theme" := JS.Str "night" ]};
     EditorContext.position :=
       {| SlidePosition.horizontal := 0; SlidePosition.vertical := 0 |};
     EditorContext.isMarkdownFile := true |}.

Definition black_settings : Configuration :=
  <[ "theme" := JS.Str "black" ]> {[ "transition" := JS.Str "slide" ]}.

Definition themed : Container.t :=
  Container.with_editorContext (Some themed_deck)
    (@Container.constructor collaborators (Container.boot 1000 black_settings)).

Definition settings_changed : Vscode.ConfigurationChangeEvent :=
  {| Vscode.affectsConfiguration := fun section => String.eqb section "revealjs" |}.

(** A deck whose front matter names its own export directory, under
    settings that name another. *)
Definition exported_deck : EditorContext.t :=
  {| EditorContext.editor := deck_md;
     EditorContext.dirname := "/talks";
     EditorContext.slideContent := "# one";
     EditorContext.slides := deck;
     EditorContext.slideCount := 5;
     EditorContext.hasfrontConfig := true;
     EditorContext.documentOptions := {[ "exportHTMLPath" := JS.Str "/out" ]};
     EditorContext.position :=
       {| SlidePosition.horizontal := 0; SlidePosition.vertical := 0 |};
     EditorContext.isMarkdownFile := true |}.

Definition exported : Container.t :=
  Container.with_editorContext (Some exported_deck)
    (@Container.constructor collaborators
       (Container.boot 1000 {[ "exportHTMLPath" := JS.Str "/base" ]})).

(** The same 800 ms after that poll: the export is over. *)
Definition resolved : Container.t :=
  @Container.step collaborators (Container.Elapse 800) waiting.

(** Settings that name an export directory. *)
Definition late_settings : Configuration :=
  {[ "exportHTMLPath" := JS.Str "/late" ]}.

Definition polled : Container.t :=
  snd (@Container.poll_every collaborators [100; 799; 500]%N
         (snd (Container.isInExport exporting))).

End Sample.

(** * Properties *)

Import Container.

(** ** Methods that leave the export session alone *)

Section Frame.
Context `{Collaborators}.

Lemma same_session_refl c : same_session c c.
Proof. by repeat split. Qed.

Lemma same_session_trans c1 c2 c3 :
  same_session c1 c2 → same_session c2 c3 → same_session c1 c3.
Proof.
  intros (?&?&?&?&?&?) (?&?&?&?&?&?). repeat split; congruence.
Qed.

Lemma log_same_session k c : same_session c (log k c).
Proof. by repeat split. Qed.

Lemma refreshWebView_same_session view c : same_session c (refreshWebView view c).
Proof.
  unfold refreshWebView. destruct view; simpl.
  - by repeat split.
  - destruct (webView c); by repeat split.
Qed.

Lemma refreshWebView_editorContext view c :
  editorContext (refreshWebView view c) = editorContext c.
Proof. unfold refreshWebView. destruct view; simpl; by destruct (webView c). Qed.

Lemma refreshWebView_server view c : server (refreshWebView view c) = server c.
Proof. unfold refreshWebView. destruct view; simpl; by destruct (webView c). Qed.

Lemma refreshWebView_configuration view c :
  _configuration (refreshWebView view c) = _configuration c.
Proof. unfold refreshWebView. destruct view; simpl; by destruct (webView c). Qed.

Lemma refreshWebView_webView view c :
  webView (refreshWebView view c) =
  match view with Some v => Some v | None => webView c end.
Proof.
  unfold refreshWebView. destruct view; simpl; [done|].
  by destruct (webView c) eqn:Hw.
Qed.

Lemma refreshWebView_calls c :
  calls (host (refreshWebView None c)) = calls (host c) ++ push c.
Proof.
  unfold refreshWebView, push. destruct (webView c); simpl; [done|].
  by rewrite app_nil_r.
Qed.

Lemma onDidChangeTextEditorSelection_same_session event c :
  same_session c (onDidChangeTextEditorSelection event c).
Proof.
  unfold onDidChangeTextEditorSelection.
  destruct (editorContext c) as [ec|]; [|apply same_session_refl].
  destruct (_ || _); [apply same_session_refl|].
  destruct (Vscode.selections event) as [|s0 rest]; [apply same_session_refl|].
  unfold refreshWebView; simpl. destruct (webView c); by repeat split.
Qed.

Lemma onDidChangeActiveTextEditor_same_session editor c :
  same_session c (onDidChangeActiveTextEditor editor c).
Proof.
  unfold onDidChangeActiveTextEditor, refreshWebView.
  destruct editor as [e|]; simpl.
  - destruct (String.eqb _ _); simpl; destruct (webView c); by repeat split.
  - destruct (webView c); by repeat split.
Qed.

Lemma onDidChangeConfiguration_same_session e c :
  same_session c (onDidChangeConfiguration e c).
Proof.
  unfold onDidChangeConfiguration. destruct (negb _); by repeat split.
Qed.

Lemma goToSlide_same_session topindex verticalIndex c :
  same_session c (goToSlide topindex verticalIndex c).
Proof.
  unfold goToSlide, refreshWebView.
  destruct (editorContext c); simpl; destruct (webView c); by repeat split.
Qed.

Lemma stopServer_same_session c : same_session c (stopServer c).
Proof. by repeat split. Qed.

Lemma session_ok_same c c' : same_session c c' → session_ok c → session_ok c'.
Proof.
  intros (Hp & Hres & Hrej & Hd & Hheap & Hnow) [Hpend Hidle Hsingle Hsettled].
  split.
  - intros p Hp'. rewrite Hp in Hp'. rewrite Hheap, Hres, Hrej, Hd, Hnow.
    exact (Hpend p Hp').
  - rewrite Hp, Hd. exact Hidle.
  - intros q. rewrite Hheap, Hp. exact (Hsingle q).
  - intros q s. rewrite Hheap. exact (Hsettled q s).
Qed.

End Frame.

(** ** The promise heap *)

Lemma settle_pending p s heap :
  heap !! p = Some JS.Pending → JS.settle p s heap !! p = Some s.
Proof.
  intros Hp. unfold JS.settle. rewrite Hp.
  apply list_lookup_insert_eq. by eapply lookup_lt_Some.
Qed.

Lemma settle_other p q s heap :
  q ≠ p → JS.settle p s heap !! q = heap !! q.
Proof.
  intros Hne. unfold JS.settle.
  destruct (heap !! p) as [[| |]|]; try done.
  by apply list_lookup_insert_ne.
Qed.

Lemma new_promise_fresh heap :
  heap !! fst (JS.new_promise heap) = None ∧
  snd (JS.new_promise heap) !! fst (JS.new_promise heap) = Some JS.Pending.
Proof.
  simpl. split.
  - by apply lookup_ge_None.
  - rewrite lookup_app_r by lia. by rewrite Nat.sub_diag.
Qed.

Lemma new_promise_old heap q s :
  heap !! q = Some s → snd (JS.new_promise heap) !! q = Some s.
Proof. intros Hq. simpl. by apply lookup_app_l_Some. Qed.

Lemma new_promise_lookup heap q s :
  snd (JS.new_promise heap) !! q = Some s →
  heap !! q = Some s ∨ (q = fst (JS.new_promise heap) ∧ s = JS.Pending).
Proof.
  simpl. intros Hq. destruct (decide (q < length heap)) as [Hlt|Hge].
  - left. by rewrite lookup_app_l in Hq.
  - right. rewrite lookup_app_r in Hq by lia.
    destruct (q - length heap) as [|n] eqn:Hn; simpl in Hq.
    + split; [lia | congruence].
    + by destruct n.
Qed.

(** ** The export session is well formed in every reachable state *)

Section Invariant.
Context `{Collaborators}.

Lemma constructor_session_ok time cfg : session_ok (constructor (boot time cfg)).
Proof. split; simpl; try done. Qed.

Lemma startExport_session_ok c : session_ok c → session_ok (snd (startExport c)).
Proof.
  intros Hok. unfold startExport.
  destruct (exportPromise c) as [p|] eqn:Hp.
  - simpl. eapply session_ok_same; [|exact Hok].
    destruct (webView c);
      [apply refreshWebView_same_session | apply log_same_session].
  - destruct Hok as [Hpend Hidle Hsingle Hsettled].
    unfold JS.new_promise. cbv beta iota zeta. cbn [snd].
    match goal with |- session_ok (match webView ?c1 with _ => _ end) =>
      apply (session_ok_same c1);
        [destruct (webView c1);
           [apply refreshWebView_same_session | apply log_same_session]|]
    end.
    split; simpl.
    + intros p' [= <-]. split; [|by eauto 10].
      rewrite lookup_app_r by lia. by rewrite Nat.sub_diag.
    + done.
    + intros q Hq. apply (new_promise_lookup (promises (host c))) in Hq.
      destruct Hq as [Hq|[-> _]]; [|done].
      apply Hsingle in Hq. congruence.
    + intros q s Hq. apply (new_promise_lookup (promises (host c))) in Hq.
      destruct Hq as [Hq|[_ ->]]; [by eapply Hsettled | by left].
Qed.

Lemma isInExport_session_ok c : session_ok c → session_ok (snd (isInExport c)).
Proof.
  intros Hok. unfold isInExport.
  destruct (exportPromise c) as [p|] eqn:Hp; simpl; [|done].
  destruct Hok as [Hpend Hidle Hsingle Hsettled].
  destruct (Hpend p Hp) as (Hheap & Hres & Hrej & d & Hd & Hwait & Hdue).
  rewrite Hd. split; simpl.
  - intros p' Hp'. rewrite Hp in Hp'. injection Hp' as <-.
    repeat split; try done.
    exists (Lodash.call (now (host c)) d). repeat split; try done.
    unfold Lodash.due; simpl. rewrite Hwait. apply N.leb_gt. lia.
  - congruence.
  - done.
  - done.
Qed.

Lemma elapse_session_ok dt c : session_ok c → session_ok (elapse dt c).
Proof.
  intros [Hpend Hidle Hsingle Hsettled]. unfold elapse; simpl.
  destruct (endDebounce c) as [d|] eqn:Hd.
  - destruct (exportPromise c) as [p|] eqn:Hp;
      [|specialize (Hidle eq_refl); congruence].
    destruct (Hpend p eq_refl) as (Hheap & Hres & Hrej & d' & Hd' & Hwait & Hdue).
    assert (d' = d) as -> by congruence.
    destruct (Lodash.due (now (host c) + dt) d) eqn:Hfire.
    + unfold endDebounceCallback; simpl. rewrite Hp, Hres.
      split; simpl; try done.
      * intros q Hq. destruct (decide (q = p)) as [->|Hne].
        -- unfold JS.resolve in Hq. rewrite settle_pending in Hq by done. done.
        -- unfold JS.resolve in Hq. rewrite settle_other in Hq by done.
           apply Hsingle in Hq. congruence.
      * intros q s Hq. destruct (decide (q = p)) as [->|Hne].
        -- unfold JS.resolve in Hq. rewrite settle_pending in Hq by done.
           right. injection Hq as <-. eauto.
        -- unfold JS.resolve in Hq. rewrite settle_other in Hq by done.
           by eapply Hsettled.
    + split; simpl.
      * intros p' Hp'. rewrite Hp in Hp'. injection Hp' as <-. rewrite Hd.
        exact (conj Hheap (conj Hres (conj Hrej
                 (ex_intro _ d (conj eq_refl (conj Hwait Hfire)))))).
      * intros Hnone. congruence.
      * intros q Hq. specialize (Hsingle q Hq). congruence.
      * exact Hsettled.
  - split; simpl; try done.
    intros p Hp. destruct (Hpend p Hp) as (_ & _ & _ & d & Hd' & _). congruence.
Qed.

Lemma step_session_ok e c : session_ok c → session_ok (step e c).
Proof.
  intros Hok. destruct e; simpl.
  - eapply session_ok_same; [apply onDidChangeTextEditorSelection_same_session|done].
  - eapply session_ok_same; [apply onDidChangeActiveTextEditor_same_session|done].
  - eapply session_ok_same; [apply log_same_session|done].
  - eapply session_ok_same; [apply log_same_session|done].
  - eapply session_ok_same; [apply log_same_session|done].
  - eapply session_ok_same; [apply onDidChangeConfiguration_same_session|done].
  - by apply startExport_session_ok.
  - by apply isInExport_session_ok.
  - eapply session_ok_same; [apply goToSlide_same_session|done].
  - eapply session_ok_same; [apply stopServer_same_session|done].
  - eapply session_ok_same; [apply refreshWebView_same_session|done].
  - by apply elapse_session_ok.
  - eapply session_ok_same; [|done]. by repeat split.
  - eapply session_ok_same; [|done]. by repeat split.
Qed.

Lemma reachable_session_ok c : reachable c → session_ok c.
Proof.
  induction 1 as [time cfg|e c _ IH].
  - apply constructor_session_ok.
  - by apply step_session_ok.
Qed.

Lemma run_session_ok es c : session_ok c → session_ok (run es c).
Proof.
  revert c. induction es as [|e es IH]; intros c Hok; simpl; [done|].
  apply IH. by apply step_session_ok.
Qed.

Lemma run_reachable es c : reachable c → reachable (run es c).
Proof.
  revert c. induction es as [|e es IH]; intros c Hc; simpl; [done|].
  apply IH. by constructor.
Qed.

End Invariant.

(** ** The sample states are reachable *)

Lemma sample_bound_reachable : @reachable Sample.collaborators Sample.bound.
Proof. unfold Sample.bound, Sample.fresh. apply reachable_step, reachable_new. Qed.

Lemma sample_exporting_reachable :
  @reachable Sample.collaborators Sample.exporting.
Proof.
  unfold Sample.exporting. apply reachable_step, sample_bound_reachable.
Qed.

Lemma sample_waiting_reachable : @reachable Sample.collaborators Sample.waiting.
Proof.
  unfold Sample.waiting. apply reachable_step, sample_exporting_reachable.
Qed.

(** ** Changing the active editor *)

(** C1, as the claim states it, fails: with the five-slide deck bound and the
    server listening, making a plain-text editor the active one (or no editor
    at all) leaves the binding in place; [slides] still reports the five
    slides, [slideCount] 5 and [getUri] an address. *)
Lemma C1_binding_survives_plaintext_editor :
  is_markdown (Some Sample.notes_txt) = false ∧
  slideCount Sample.bound = 5%nat ∧
  (let c' := @onDidChangeActiveTextEditor Sample.collaborators
               (Some Sample.notes_txt) Sample.bound in
   editorContext c' ≠ None ∧ slides c' = Sample.deck ∧ slides c' ≠ [] ∧
   slideCount c' = 5%nat ∧
   getUri true c' = Some "http://localhost:8080/#/0/0/1000") ∧
  (let c' := @onDidChangeActiveTextEditor Sample.collaborators None Sample.bound in
   editorContext c' ≠ None ∧ slides c' ≠ [] ∧ slideCount c' = 5%nat ∧
   getUri true c' ≠ None).
Proof. vm_compute. repeat split; congruence. Qed.

(** C1, amended: when the active editor changes to an editor that is not a
    markdown editor, or to no editor, the Document Binding is left as it was,
    so [slides] and [slideCount] report what they reported before; when the
    new editor is a markdown editor the old binding is discarded and replaced
    with a fresh one made from that editor. In both cases the server is
    started and refreshed, and afterwards [getUri] reports absent exactly
    when that server is not listening or nothing is bound. *)
Theorem C1_active_editor_binding `{Collaborators}
    (editor : option Vscode.TextEditor) (c : t) :
  let c' := onDidChangeActiveTextEditor editor c in
  (if is_markdown editor
   then ∃ e, editor = Some e ∧
        editorContext c' =
          Some (newEditorContext e (getDocumentOptions (configuration c)))
   else editorContext c' = editorContext c ∧
        slides c' = slides c ∧ slideCount c' = slideCount c) ∧
  server c' = refreshServer (start (server c)) ∧
  ∀ withPosition,
    getUri withPosition c' = None ↔
    RevealServer.isListening (server c') = false ∨ editorContext c' = None.
Proof.
  intros c'. split; [|split].
  - subst c'. unfold onDidChangeActiveTextEditor, is_markdown, slides, slideCount.
    destruct editor as [e|]; [destruct (String.eqb _ _)|]; simpl;
      rewrite refreshWebView_editorContext; simpl; eauto.
  - subst c'. unfold onDidChangeActiveTextEditor.
    destruct editor as [e|]; [destruct (String.eqb _ _)|]; simpl;
      by rewrite refreshWebView_server.
  - intros withPosition. unfold getUri.
    destruct (RevealServer.isListening (server c')), (editorContext c');
      simpl; intuition congruence.
Qed.

(** ** The address of the presentation *)

Lemma has_char_app a s1 s2 :
  has_char a (s1 +:+ s2) = has_char a s1 || has_char a s2.
Proof.
  induction s1 as [|b s1 IH]; simpl; [done|].
  by rewrite IH, orb_assoc.
Qed.

(** C2: [getUri(withPosition)] returns absent exactly when the server is not
    listening or no Document Binding exists; otherwise [getUri(true)] is the
    base address followed by [#/<horizontal>/<vertical>/<timestamp>], with the
    position of the binding and the clock's epoch milliseconds in decimal, and
    [getUri(false)] is the base address alone, with no [#] beyond those the
    base address itself has (none, when the base has none). *)
Theorem C2_getUri (c : t) :
  (∀ withPosition,
     getUri withPosition c = None ↔
     RevealServer.isListening (server c) = false ∨ editorContext c = None) ∧
  (∀ ec,
     RevealServer.isListening (server c) = true →
     editorContext c = Some ec →
     let base := JS.template (RevealServer.uri (server c)) in
     let slidepos := EditorContext.position ec in
     getUri true c =
       Some (base +:+ uri_fragment (SlidePosition.horizontal slidepos)
                        (SlidePosition.vertical slidepos) (now (host c))) ∧
     getUri false c = Some base ∧
     (has_char "#" base = false →
      ∀ u, getUri false c = Some u → has_char "#" u = false) ∧
     (∀ u, getUri true c = Some u → has_char "#" u = true)).
Proof.
  split.
  - intros withPosition. unfold getUri.
    destruct (RevealServer.isListening (server c)), (editorContext c);
      simpl; intuition congruence.
  - intros ec Hlisten Hec base slidepos. unfold getUri.
    rewrite Hlisten, Hec. simpl. repeat split.
    + intros Hbase u [= <-]. exact Hbase.
    + intros u [= <-]. fold base. unfold uri_fragment.
      rewrite has_char_app. simpl. apply orb_true_r.
Qed.

Lemma C2_getUri_sample :
  getUri true Sample.bound = Some "http://localhost:8080/#/0/0/1000" ∧
  getUri false Sample.bound = Some "http://localhost:8080/" ∧
  has_char "#" "http://localhost:8080/" = false.
Proof.
  destruct (C2_getUri Sample.bound) as [_ Huri].
  destruct (Huri (Sample.bind Sample.deck_md ∅) eq_refl eq_refl)
    as (Htrue & Hfalse & Hhash & _).
  split; [|split].
  - rewrite Htrue. vm_compute. reflexivity.
  - rewrite Hfalse. reflexivity.
  - apply (Hhash eq_refl _ Hfalse).
Defined.

(** ** The export session *)

Section ExportSession.
Context `{Collaborators}.

Lemma startExport_returns_field c :
  fst (startExport c) = exportPromise (snd (startExport c)).
Proof. reflexivity. Qed.

(** With a session open, [startExport] only refreshes the surface. *)
Lemma startExport_join c p :
  exportPromise c = Some p → same_session c (snd (startExport c)).
Proof.
  intros Hp. unfold startExport. rewrite Hp. cbn [snd].
  destruct (webView c); [apply refreshWebView_same_session | apply log_same_session].
Qed.

(** With none, it opens one on a promise that was not in the heap. *)
Lemma startExport_open c :
  exportPromise c = None →
  let p := length (promises (host c)) in
  let c' := snd (startExport c) in
  exportPromise c' = Some p ∧
  exportPromiseResolve c' = Some p ∧
  exportPromiseReject c' = Some p ∧
  endDebounce c' = Some (Lodash.debounce 800) ∧
  promises (host c') = promises (host c) ++ [JS.Pending] ∧
  now (host c') = now (host c).
Proof.
  intros Hp p c'. subst p c'. unfold startExport. rewrite Hp.
  unfold JS.new_promise. cbv beta iota zeta. cbn [snd].
  match goal with |- context [match webView ?c1 with _ => _ end] =>
    assert (Hsame : same_session c1 (match webView c1 with
                      | Some _ => refreshWebView None c1
                      | None => log (ExecuteCommand SHOW_REVEALJS) c1
                      end))
      by (destruct (webView c1);
            [apply refreshWebView_same_session | apply log_same_session])
  end.
  destruct Hsame as (-> & -> & -> & -> & -> & ->). by repeat split.
Qed.

End ExportSession.

(** C3: [startExport()] is an idempotent join. Called while a session is
    pending it returns the reference of that session's promise and creates
    nothing (the heap of promises and the debounced function are the ones
    before the call); only with no session does it create a promise, which is
    a new one. So two calls in a row return the identical future, and so do
    two calls with any events between them that leave the future pending. *)
Theorem C3_startExport_idempotent_join `{Collaborators} (c : t) :
  (∀ p, exportPromise c = Some p →
     fst (startExport c) = Some p ∧
     promises (host (snd (startExport c))) = promises (host c) ∧
     endDebounce (snd (startExport c)) = endDebounce c) ∧
  (exportPromise c = None →
     let p := length (promises (host c)) in
     fst (startExport c) = Some p ∧
     promises (host c) !! p = None ∧
     promises (host (snd (startExport c))) = promises (host c) ++ [JS.Pending] ∧
     endDebounce (snd (startExport c)) = Some (Lodash.debounce 800)) ∧
  (∃ p, fst (startExport c) = Some p ∧
        fst (startExport (snd (startExport c))) = Some p ∧
        promises (host (snd (startExport (snd (startExport c))))) =
          promises (host (snd (startExport c)))) ∧
  (reachable c → ∀ es p,
     fst (startExport c) = Some p →
     let c2 := run es (snd (startExport c)) in
     promises (host c2) !! p = Some JS.Pending →
     fst (startExport c2) = Some p ∧
     promises (host (snd (startExport c2))) = promises (host c2)).
Proof.
  assert (Hjoin : ∀ c0 p, exportPromise c0 = Some p →
            fst (startExport c0) = Some p ∧
            promises (host (snd (startExport c0))) = promises (host c0) ∧
            endDebounce (snd (startExport c0)) = endDebounce c0).
  { intros c0 p Hp. rewrite startExport_returns_field.
    destruct (startExport_join c0 p Hp) as (-> & _ & _ & -> & -> & _). done. }
  assert (Hsome : ∃ p, fst (startExport c) = Some p).
  { rewrite startExport_returns_field.
    destruct (exportPromise c) as [p|] eqn:Hp.
    - exists p. destruct (startExport_join c p Hp) as (-> & _). done.
    - destruct (startExport_open c Hp) as (-> & _). eauto. }
  split; [|split; [|split]].
  - intros p Hp. by apply Hjoin.
  - intros Hp p. subst p. rewrite startExport_returns_field.
    destruct (startExport_open c Hp) as (-> & _ & _ & -> & -> & _).
    repeat split. by apply lookup_ge_None.
  - destruct Hsome as [p Hp]. exists p. split; [done|].
    rewrite startExport_returns_field in Hp.
    destruct (Hjoin _ p Hp) as (-> & -> & _). done.
  - intros Hreach es p Hp c2 Hpending.
    assert (Hc2 : session_ok c2).
    { apply run_session_ok, startExport_session_ok.
      by apply reachable_session_ok. }
    destruct (Hjoin c2 p (ok_single c2 Hc2 p Hpending)) as (-> & -> & _). done.
Qed.

Lemma C3_startExport_sample :
  let c1 := snd (@startExport Sample.collaborators Sample.bound) in
  let c2 := @run Sample.collaborators
              [CallIsInExport; Elapse 500; CallGoToSlide 2 1; CallIsInExport] c1 in
  exportPromise Sample.bound = None ∧
  @startExport Sample.collaborators Sample.bound = (Some 0%nat, c1) ∧
  fst (@startExport Sample.collaborators c1) = Some 0%nat ∧
  fst (@startExport Sample.collaborators c2) = Some 0%nat.
Proof.
  intros c1 c2.
  destruct (C3_startExport_idempotent_join (H := Sample.collaborators) Sample.bound)
    as (_ & Hopen & _ & Hlater).
  destruct (C3_startExport_idempotent_join (H := Sample.collaborators) c1)
    as (Hjoin & _).
  split; [reflexivity|]. split; [|split].
  - destruct (Hopen eq_refl) as (Hfst & _). reflexivity.
  - exact (proj1 (Hjoin 0%nat eq_refl)).
  - refine (proj1 (Hlater _
      [CallIsInExport; Elapse 500; CallGoToSlide 2 1; CallIsInExport]
      0%nat eq_refl eq_refl)).
    exact sample_bound_reachable.
Defined.

Section Polling.
Context `{Collaborators}.

Lemma exportPath_with_host h c : exportPath (with_host h c) = exportPath c.
Proof. reflexivity. Qed.

Lemma isInExport_idle c : exportPromise c = None → isInExport c = (false, c).
Proof. intros Hp. unfold isInExport. by rewrite Hp. Qed.

(** A poll of a pending session answers [true] and restarts the timer; it
    changes nothing else. *)
Lemma isInExport_pending c p :
  session_ok c → exportPromise c = Some p →
  ∃ d, endDebounce c = Some d ∧ Lodash.wait d = 800%N ∧
       isInExport c =
         (true, with_endDebounce (Some (Lodash.call (now (host c)) d)) c).
Proof.
  intros Hok Hp.
  destruct (ok_pending c Hok p Hp) as (_ & _ & _ & d & Hd & Hwait & _).
  exists d. repeat split; try done.
  unfold isInExport. rewrite Hp, Hd. simpl. by rewrite Hp.
Qed.

Lemma isInExport_armed c p :
  session_ok c → exportPromise c = Some p → armed p (snd (isInExport c)).
Proof.
  intros Hok Hp.
  destruct (ok_pending c Hok p Hp) as (Hheap & Hres & _).
  destruct (isInExport_pending c p Hok Hp) as (d & Hd & Hwait & ->).
  unfold armed; simpl. repeat split; try done.
  unfold Lodash.call. by rewrite Hwait.
Qed.

(** Polled again before the window closes, the session stays pending. *)
Lemma poll_keeps_armed c p gap :
  armed p c → (gap < 800)%N →
  fst (isInExport (elapse gap c)) = true ∧ armed p (snd (isInExport (elapse gap c))).
Proof.
  intros (Hp & Hres & Hheap & Hd) Hgap.
  assert (Hquiet : elapse gap c =
            with_host (with_now (now (host c) + gap)%N (host c)) c).
  { unfold elapse; simpl. rewrite Hd. unfold Lodash.due; simpl.
    destruct (N.leb_spec (now (host c) + 800) (now (host c) + gap)); [lia|done]. }
  rewrite Hquiet. unfold isInExport; simpl. rewrite Hp, Hd; simpl. rewrite Hp.
  split; [done|]. unfold armed; simpl. by repeat split.
Qed.

Lemma poll_every_cons gap rest c :
  poll_every (gap :: rest) c =
  (fst (isInExport (elapse gap c))
     :: fst (poll_every rest (snd (isInExport (elapse gap c)))),
   snd (poll_every rest (snd (isInExport (elapse gap c))))).
Proof.
  simpl. destruct (isInExport (elapse gap c)) as [answer c1]. simpl.
  by destruct (poll_every rest c1).
Qed.

Lemma poll_every_armed gaps : ∀ c p,
  armed p c → Forall (λ gap, (gap < 800)%N) gaps →
  Forall (λ answer, answer = true) (fst (poll_every gaps c)) ∧
  armed p (snd (poll_every gaps c)).
Proof.
  induction gaps as [|gap rest IH]; intros c p Harmed Hgaps.
  - simpl. by split.
  - rewrite poll_every_cons. simpl.
    apply Forall_cons in Hgaps as [Hgap Hrest].
    destruct (poll_keeps_armed c p gap Harmed Hgap) as [Hanswer Harmed'].
    destruct (IH _ p Harmed' Hrest) as [Hanswers Hlast].
    split; [by constructor | done].
Qed.

(** Left alone for the whole window, the session is resolved and cleared. *)
Lemma quiet_resolves c p dt :
  armed p c → (800 ≤ dt)%N →
  promises (host (elapse dt c)) !! p = Some (JS.Fulfilled (exportPath c)) ∧
  exportPromise (elapse dt c) = None ∧
  endDebounce (elapse dt c) = None.
Proof.
  intros (Hp & Hres & Hheap & Hd) Hdt.
  unfold elapse; simpl. rewrite Hd. unfold Lodash.due; simpl.
  destruct (N.leb_spec (now (host c) + 800) (now (host c) + dt)); [|lia].
  unfold endDebounceCallback; simpl. rewrite Hp, Hres; simpl.
  split; [|done]. unfold JS.resolve. by apply settle_pending.
Qed.

End Polling.

Section Closing.
Context `{Collaborators}.

(** No event but the passing of time takes a session away. *)
Lemma step_keeps_session e c p :
  (∀ dt, e ≠ Elapse dt) → session_ok c →
  exportPromise c = Some p → exportPromise (step e c) = Some p.
Proof.
  intros Hne Hok Hp.
  assert (Hsame : ∀ c', same_session c c' → exportPromise c' = Some p)
    by (intros c' (-> & _); done).
  destruct e; simpl.
  - apply Hsame, onDidChangeTextEditorSelection_same_session.
  - apply Hsame, onDidChangeActiveTextEditor_same_session.
  - done.
  - done.
  - done.
  - apply Hsame, onDidChangeConfiguration_same_session.
  - by apply Hsame, (startExport_join c p).
  - by destruct (isInExport_pending c p Hok Hp) as (d & _ & _ & ->).
  - apply Hsame, goToSlide_same_session.
  - done.
  - apply Hsame, refreshWebView_same_session.
  - by destruct (Hne dt).
  - done.
  - done.
Qed.

(** Time passing runs the callback when the window has closed, and only
    then. *)
Lemma elapse_cases dt c p d :
  exportPromise c = Some p → exportPromiseResolve c = Some p →
  endDebounce c = Some d →
  elapse dt c =
    let c1 := with_host (with_now (now (host c) + dt)%N (host c)) c in
    if Lodash.due (now (host c) + dt) d
    then with_endDebounce None (with_exportPromise None
           (with_host (with_promises
              (JS.resolve p (exportPath c) (promises (host c1))) (host c1)) c1))
    else c1.
Proof.
  intros Hp Hres Hd. unfold elapse; simpl. rewrite Hd.
  destruct (Lodash.due _ d); [|done].
  unfold endDebounceCallback; simpl. by rewrite Hp, Hres.
Qed.

End Closing.

(** *** Any schedule of events

    The two halves of the polling protocol hold for every interleaving of
    events, not only for polls that follow one another directly. *)

Section Schedules.
Context `{Collaborators}.

Lemma step_same_session e c :
  touches_session e = false → same_session c (step e c).
Proof.
  destruct e; simpl; try discriminate; intros _.
  - apply onDidChangeTextEditorSelection_same_session.
  - apply onDidChangeActiveTextEditor_same_session.
  - apply log_same_session.
  - apply log_same_session.
  - apply log_same_session.
  - apply onDidChangeConfiguration_same_session.
  - apply goToSlide_same_session.
  - apply stopServer_same_session.
  - apply refreshWebView_same_session.
  - by repeat split.
  - by repeat split.
Qed.

Lemma pending_since_same p last c c' :
  same_session c c' → pending_since p last c → pending_since p last c'.
Proof.
  unfold pending_since. intros (-> & -> & _ & -> & -> & ->) Hpending.
  exact Hpending.
Qed.

Lemma armed_pending_since p c : armed p c → pending_since p (now (host c)) c.
Proof. intros (? & ? & ? & ?). repeat split; try done. lia. Qed.

(** One event of a pending session: a poll restarts the window, time that
    passes either stays inside it or closes it and resolves the promise, and
    nothing else matters. *)
Lemma step_pending_since e c p last :
  pending_since p last c →
  match e with
  | CallIsInExport => pending_since p (now (host c)) (step e c)
  | Elapse dt =>
    if (now (host c) + dt <? last + 800)%N
    then pending_since p last (step e c) ∧
         now (host (step e c)) = (now (host c) + dt)%N
    else promises (host (step e c)) !! p = Some (JS.Fulfilled (exportPath c))
  | _ => pending_since p last (step e c) ∧ now (host (step e c)) = now (host c)
  end.
Proof.
  intros Hpending.
  assert (Hframe : ∀ c', same_session c c' →
            pending_since p last c' ∧ now (host c') = now (host c)).
  { intros c' Hsame. split; [by eapply pending_since_same|].
    by destruct Hsame as (_ & _ & _ & _ & _ & ->). }
  destruct e; try (apply Hframe, step_same_session; reflexivity).
  - destruct Hpending as (Hp & _). apply Hframe. simpl.
    by apply (startExport_join c p).
  - destruct Hpending as (Hp & Hres & Hheap & Hd & Hnow).
    simpl. unfold isInExport. rewrite Hp, Hd. simpl.
    repeat split; try done. simpl. lia.
  - destruct Hpending as (Hp & Hres & Hheap & Hd & Hnow).
    simpl. rewrite (elapse_cases dt c p _ Hp Hres Hd). unfold Lodash.due. simpl.
    destruct (N.ltb_spec (now (host c) + dt) (last + 800)) as [Hin|Hout].
    + destruct (N.leb_spec (last + 800) (now (host c) + dt)); [lia|].
      simpl. by repeat split.
    + destruct (N.leb_spec (last + 800) (now (host c) + dt)); [|lia].
      simpl. unfold JS.resolve. by apply settle_pending.
Qed.

(** A settled promise stays as it is. *)
Lemma step_keeps_fulfilled e c q v :
  promises (host c) !! q = Some (JS.Fulfilled v) →
  promises (host (step e c)) !! q = Some (JS.Fulfilled v).
Proof.
  intros Hq.
  assert (Hframe : ∀ c', same_session c c' →
            promises (host c') !! q = Some (JS.Fulfilled v))
    by (intros c' (_ & _ & _ & _ & -> & _); done).
  destruct e; try (apply Hframe, step_same_session; reflexivity).
  - unfold step. destruct (exportPromise c) as [p|] eqn:Hp.
    + by apply Hframe, (startExport_join c p).
    + destruct (startExport_open c Hp) as (_ & _ & _ & _ & -> & _).
      by apply lookup_app_l_Some.
  - simpl. unfold isInExport.
    destruct (exportPromise c); [|done]. by destruct (endDebounce c).
  - simpl. unfold elapse. simpl.
    destruct (endDebounce c) as [d|]; [|done].
    destruct (Lodash.due _ d); [|done].
    unfold endDebounceCallback. simpl.
    destruct (exportPromise c); [|done].
    destruct (exportPromiseResolve c) as [r|]; [|done]. simpl.
    unfold JS.resolve. destruct (decide (q = r)) as [->|Hne].
    + unfold JS.settle. by rewrite Hq.
    + by rewrite settle_other.
Qed.

Lemma run_keeps_fulfilled es : ∀ c q v,
  promises (host c) !! q = Some (JS.Fulfilled v) →
  promises (host (run es c)) !! q = Some (JS.Fulfilled v).
Proof.
  induction es as [|e es IH]; intros c q v Hq; simpl; [done|].
  by apply IH, step_keeps_fulfilled.
Qed.

(** As long as each poll comes before the window of the one before closes,
    whatever else happens, the export stays pending. *)
Lemma polled_in_time_stays_pending es : ∀ c p last,
  pending_since p last c →
  polled_in_time last (now (host c)) es = true →
  ∃ last', pending_since p last' (run es c).
Proof.
  induction es as [|e es IH]; intros c p last Hpending Hsched.
  - by exists last.
  - pose proof (step_pending_since e c p last Hpending) as Hstep.
    destruct e; simpl in Hsched;
      try (destruct Hstep as [Hstep Hnow]; apply (IH _ p last Hstep);
           by rewrite Hnow).
    + eapply (IH _ p _ Hstep).
      assert (Hnow : now (host (step CallIsInExport c)) = now (host c)).
      { simpl. unfold isInExport.
        destruct (exportPromise c); [|done]. by destruct (endDebounce c). }
      by rewrite Hnow.
    + apply andb_prop in Hsched as [Hin Hrest]. rewrite Hin in Hstep.
      destruct Hstep as [Hstep Hnow]. apply (IH _ p last Hstep).
      by rewrite Hnow.
Qed.

(** Once no poll is made while 800 ms pass since the last one, whatever
    else happens, the export is resolved. *)
Lemma quiet_period_resolves es : ∀ c p last,
  pending_since p last c →
  forallb (λ e, negb (is_poll e)) es = true →
  (last + 800 ≤ now (host c) + elapsed es)%N →
  ∃ v, promises (host (run es c)) !! p = Some (JS.Fulfilled v).
Proof.
  induction es as [|e es IH]; intros c p last Hpending Hquiet Htime.
  - destruct Hpending as (_ & _ & _ & _ & Hnow). simpl in Htime. lia.
  - pose proof (step_pending_since e c p last Hpending) as Hstep.
    simpl in Hquiet. apply andb_prop in Hquiet as [Hnopoll Hquiet].
    destruct e; try discriminate; simpl in Htime;
      try (destruct Hstep as [Hstep Hnow]; apply (IH _ p last Hstep Hquiet);
           by rewrite Hnow).
    destruct (now (host c) + dt <? last + 800)%N.
    + destruct Hstep as [Hstep Hnow]. apply (IH _ p last Hstep Hquiet).
      rewrite Hnow. lia.
    + eexists. simpl. by apply run_keeps_fulfilled.
Qed.

(** [startExport] makes the debounced function but does not call it: the
    window opens at the first poll. Until then no amount of time resolves
    the export. *)
Lemma unpolled_stays_pending es : ∀ c p,
  unpolled p c →
  forallb (λ e, negb (is_poll e)) es = true →
  unpolled p (run es c).
Proof.
  induction es as [|e es IH]; intros c p Hun Hquiet; [done|].
  simpl in Hquiet. apply andb_prop in Hquiet as [Hnopoll Hquiet].
  simpl. apply IH; [|done]. clear IH Hquiet.
  assert (Hframe : ∀ c', same_session c c' → unpolled p c').
  { unfold unpolled. intros c' (-> & _ & _ & -> & -> & _). exact Hun. }
  destruct Hun as (Hp & Hheap & Hd).
  destruct e; try discriminate;
    try (apply Hframe, step_same_session; reflexivity).
  - by apply Hframe, (startExport_join c p).
  - simpl. unfold elapse. simpl. rewrite Hd. simpl. by repeat split.
Qed.

Lemma startExport_unpolled c :
  exportPromise c = None →
  unpolled (length (promises (host c))) (snd (startExport c)).
Proof.
  intros Hp. destruct (startExport_open c Hp) as (Hp' & _ & _ & Hd & Hheap & _).
  repeat split; try done. rewrite Hheap.
  rewrite lookup_app_r by lia. by rewrite Nat.sub_diag.
Qed.

End Schedules.

(** C4: [isInExport] answers false when there is no export session. With a
    session pending it restarts the 800 ms window of the debounced callback
    (the time of the last call becomes now, nothing else changes) and answers
    true. Hence polls that follow one another by less than 800 ms all answer
    true and leave the future pending, however many they are, and once the
    polls stop for 800 ms or more the future is resolved with the export
    path and the session is cleared. The same holds with any other events
    between the polls: while the clock never gets 800 ms past the latest
    poll the future stays pending, and once 800 ms pass without a poll it is
    resolved. *)
Theorem C4_isInExport_rearms_debounce `{Collaborators} (c : t) :
  (exportPromise c = None → isInExport c = (false, c)) ∧
  (reachable c → ∀ p, exportPromise c = Some p →
     let c0 := snd (isInExport c) in
     fst (isInExport c) = true ∧
     (∃ d, endDebounce c = Some d ∧ Lodash.wait d = 800%N ∧
           c0 = with_endDebounce (Some (Lodash.call (now (host c)) d)) c) ∧
     ∀ gaps, Forall (λ gap, (gap < 800)%N) gaps →
       let c1 := snd (poll_every gaps c0) in
       Forall (λ answer, answer = true) (fst (poll_every gaps c0)) ∧
       exportPromise c1 = Some p ∧
       promises (host c1) !! p = Some JS.Pending ∧
       (∀ dt, (800 ≤ dt)%N →
          promises (host (elapse dt c1)) !! p =
            Some (JS.Fulfilled (exportPath c1)) ∧
          exportPromise (elapse dt c1) = None ∧
          endDebounce (elapse dt c1) = None) ∧
       (∀ es, polled_in_time (now (host c1)) (now (host c1)) es = true →
          exportPromise (run es c1) = Some p ∧
          promises (host (run es c1)) !! p = Some JS.Pending) ∧
       (∀ es, forallb (λ e, negb (is_poll e)) es = true →
          (800 ≤ elapsed es)%N →
          ∃ v, promises (host (run es c1)) !! p = Some (JS.Fulfilled v))).
Proof.
  split; [apply isInExport_idle|].
  intros Hreach p Hp c0.
  pose proof (reachable_session_ok c Hreach) as Hok.
  destruct (isInExport_pending c p Hok Hp) as (d & Hd & Hwait & Hcall).
  pose proof (isInExport_armed c p Hok Hp) as Harmed. fold c0 in Harmed.
  split; [by rewrite Hcall|]. split.
  - exists d. subst c0. by rewrite Hcall.
  - intros gaps Hgaps c1.
    destruct (poll_every_armed gaps c0 p Harmed Hgaps) as [Hanswers Hlast].
    fold c1 in Hlast. split; [done|].
    pose proof (armed_pending_since p c1 Hlast) as Hsince.
    destruct Hlast as (Hp1 & Hres1 & Hheap1 & Hd1).
    split; [done|]. split; [done|]. split; [|split].
    + intros dt Hdt. by apply (quiet_resolves c1 p dt).
    + intros es Hsched.
      destruct (polled_in_time_stays_pending es c1 p _ Hsince Hsched)
        as (last' & Hp' & _ & Hheap' & _).
      done.
    + intros es Hquiet Htime.
      apply (quiet_period_resolves es c1 p _ Hsince Hquiet). lia.
Qed.

Lemma C4_polling_sample :
  exportPromise Sample.exporting = Some 0%nat ∧
  fst (isInExport Sample.exporting) = true ∧
  promises (host Sample.polled) !! 0%nat = Some JS.Pending ∧
  promises (host (@elapse Sample.collaborators 800 Sample.polled)) !! 0%nat =
    Some (JS.Fulfilled (JS.Str "/talks/export")).
Proof.
  destruct (C4_isInExport_rearms_debounce (H := Sample.collaborators)
              Sample.exporting) as [_ Hpending].
  pose proof sample_exporting_reachable as Hreach.
  assert (Hp : exportPromise Sample.exporting = Some 0%nat)
    by (vm_compute; reflexivity).
  destruct (Hpending Hreach 0%nat Hp) as (Htrue & _ & Hpolls).
  assert (Hgaps : Forall (λ gap, (gap < 800)%N) [100; 799; 500]%N)
    by (repeat (constructor; [lia|]); constructor).
  destruct (Hpolls _ Hgaps) as (_ & _ & Hstill & Hquiet & _).
  destruct (Hquiet 800%N ltac:(lia)) as (Hdone & _).
  assert (Hpath : @exportPath Sample.collaborators
                    (snd (@poll_every Sample.collaborators [100; 799; 500]%N
                            (snd (isInExport Sample.exporting)))) =
                  JS.Str "/talks/export") by (vm_compute; reflexivity).
  rewrite Hpath in Hdone.
  split; [exact Hp|]. split; [exact Htrue|]. split; [exact Hstill|].
  exact Hdone.
Defined.


(** C5: a pending export session becomes idle only through the debounced
    callback: the one event that takes the session away is the passing of
    time up to 800 ms or more after the last call of the debounced function.
    When that callback runs it resolves the promise of the session with the
    export path and sets the export promise and the debounced function back
    to absent. At any time at most one promise is pending, and it is the
    promise of the session. *)
Theorem C5_session_ends_on_debounce `{Collaborators} (c : t) :
  reachable c →
  (∀ e p, exportPromise c = Some p → exportPromise (step e c) = None →
     ∃ dt d t, e = Elapse dt ∧ endDebounce c = Some d ∧
       Lodash.wait d = 800%N ∧ Lodash.lastCallTime d = Some t ∧
       (t + 800 ≤ now (host c) + dt)%N) ∧
  (∀ p d t dt, exportPromise c = Some p → endDebounce c = Some d →
     Lodash.lastCallTime d = Some t →
     if (t + 800 <=? now (host c) + dt)%N
     then promises (host (elapse dt c)) !! p = Some (JS.Fulfilled (exportPath c)) ∧
          exportPromise (elapse dt c) = None ∧
          endDebounce (elapse dt c) = None
     else promises (host (elapse dt c)) !! p = Some JS.Pending ∧
          exportPromise (elapse dt c) = Some p) ∧
  (∀ p q, promises (host c) !! p = Some JS.Pending →
     promises (host c) !! q = Some JS.Pending →
     p = q ∧ exportPromise c = Some p).
Proof.
  intros Hreach. pose proof (reachable_session_ok c Hreach) as Hok.
  split; [|split].
  - intros e p Hp Hgone.
    destruct (ok_pending c Hok p Hp) as (Hheap & Hres & _ & d & Hd & Hwait & _).
    destruct e as [| | | | | | | | | | |dt| |];
      try (rewrite (step_keeps_session _ c p) in Hgone; done).
    simpl in Hgone. rewrite (elapse_cases dt c p d Hp Hres Hd) in Hgone.
    simpl in Hgone. unfold Lodash.due in *.
    destruct (Lodash.lastCallTime d) as [t|] eqn:Ht;
      [|simpl in Hgone; congruence].
    rewrite Hwait in Hgone.
    destruct (N.leb_spec (t + 800) (now (host c) + dt));
      [|simpl in Hgone; congruence].
    by exists dt, d, t.
  - intros p d t dt Hp Hd Ht.
    destruct (ok_pending c Hok p Hp) as (Hheap & Hres & _ & d' & Hd' & Hwait & _).
    assert (d' = d) as -> by congruence.
    rewrite (elapse_cases dt c p d Hp Hres Hd). unfold Lodash.due.
    rewrite Ht, Hwait. simpl.
    destruct (t + 800 <=? now (host c) + dt)%N; simpl; [|done].
    split; [|done]. unfold JS.resolve. by apply settle_pending.
  - intros p q Hpending Hq.
    pose proof (ok_single c Hok p Hpending). pose proof (ok_single c Hok q Hq).
    split; congruence.
Qed.

Lemma C5_session_sample :
  exportPromise Sample.waiting = Some 0%nat ∧
  promises (host (@elapse Sample.collaborators 799 Sample.waiting)) !! 0%nat =
    Some JS.Pending ∧
  promises (host (@elapse Sample.collaborators 800 Sample.waiting)) !! 0%nat =
    Some (JS.Fulfilled (JS.Str "/talks/export")) ∧
  exportPromise (@elapse Sample.collaborators 800 Sample.waiting) = None ∧
  endDebounce (@elapse Sample.collaborators 800 Sample.waiting) = None.
Proof.
  destruct (C5_session_ends_on_debounce (H := Sample.collaborators)
              Sample.waiting sample_waiting_reachable) as (_ & Hfire & _).
  assert (Hp : exportPromise Sample.waiting = Some 0%nat)
    by (vm_compute; reflexivity).
  assert (Hd : endDebounce Sample.waiting =
               Some {| Lodash.wait := 800; Lodash.lastCallTime := Some 1000%N |})
    by (vm_compute; reflexivity).
  assert (Hnow : now (host Sample.waiting) = 1000%N) by (vm_compute; reflexivity).
  assert (Hpath : @exportPath Sample.collaborators Sample.waiting =
                  JS.Str "/talks/export") by (vm_compute; reflexivity).
  pose proof (Hfire 0%nat _ 1000%N 799%N Hp Hd eq_refl) as Hearly.
  pose proof (Hfire 0%nat _ 1000%N 800%N Hp Hd eq_refl) as Hlate.
  rewrite Hnow in Hearly, Hlate. rewrite Hpath in Hlate.
  simpl in Hearly, Hlate.
  destruct Hearly as [Hearly _]. destruct Hlate as (Hlate & Hgone & Hcleared).
  repeat split; assumption.
Defined.

(** C6: the rejecting function of the export promise is stored with the
    session but no method of the Container calls it: in every state the
    Container can reach, every promise it made is pending or fulfilled,
    never rejected. *)
Theorem C6_export_never_rejected `{Collaborators} (c : t) :
  reachable c →
  (∀ p, exportPromise c = Some p → exportPromiseReject c = Some p) ∧
  (∀ q s, promises (host c) !! q = Some s →
     s = JS.Pending ∨ ∃ v, s = JS.Fulfilled v) ∧
  (∀ q reason, promises (host c) !! q ≠ Some (JS.Rejected reason)).
Proof.
  intros Hreach. pose proof (reachable_session_ok c Hreach) as Hok.
  split; [|split].
  - intros p Hp. by destruct (ok_pending c Hok p Hp) as (_ & _ & Hrej & _).
  - exact (ok_settled c Hok).
  - intros q reason Hq.
    destruct (ok_settled c Hok q _ Hq) as [Hs|[v Hs]]; discriminate.
Qed.

Lemma C6_never_rejected_sample :
  exportPromiseReject Sample.waiting = Some 0%nat ∧
  ∀ reason, promises (host Sample.waiting) !! 0%nat ≠ Some (JS.Rejected reason).
Proof.
  destruct (C6_export_never_rejected (H := Sample.collaborators)
              Sample.waiting sample_waiting_reachable) as (Hstored & _ & Hnever).
  split.
  - apply Hstored. vm_compute. reflexivity.
  - intros reason. apply Hnever.
Defined.

(** ** Selection changes *)

Lemma push_log k c : push (log k c) = push c.
Proof. reflexivity. Qed.

(** C7: the selection-changed handler does nothing when no Document Binding
    exists, when the event's editor is not the bound editor, or when the
    event has no selection. Otherwise it makes, in this order: (1) the update
    of the position from the cursor (the active end of the first selection),
    (2) the refresh of the render surface, which pushes the address of the
    position as updated and not yet refreshed, (3) the refresh of the
    binding, (4) the update of the status bar, (5) the update of the slide
    explorer; the binding it leaves is the updated one, refreshed. *)
Theorem C7_selection_changed_order `{Collaborators}
    (event : Vscode.TextEditorSelectionChangeEvent) (c : t) :
  (editorContext c = None → onDidChangeTextEditorSelection event c = c) ∧
  (∀ ec, editorContext c = Some ec →
     (Vscode.same_editor (Vscode.textEditor event) (EditorContext.editor ec) = false →
      onDidChangeTextEditorSelection event c = c) ∧
     (Vscode.selections event = [] →
      onDidChangeTextEditorSelection event c = c) ∧
     (∀ first rest,
        Vscode.same_editor (Vscode.textEditor event) (EditorContext.editor ec) = true →
        Vscode.selections event = first :: rest →
        let end_ := Vscode.active first in
        let moved := with_editorContext (Some (updatePosition end_ ec)) c in
        let c' := onDidChangeTextEditorSelection event c in
        calls (host c') =
          calls (host c) ++ [EditorUpdatePosition end_] ++ push moved ++
          [EditorRefresh; StatusBarUpdate; SlidesExplorerUpdate] ∧
        editorContext c' = Some (refresh (updatePosition end_ ec)) ∧
        server c' = server c ∧ _configuration c' = _configuration c ∧
        webView c' = webView c ∧ same_session c c')).
Proof.
  split.
  - intros Hnone. unfold onDidChangeTextEditorSelection. by rewrite Hnone.
  - intros ec Hec. split; [|split].
    + intros Hother. unfold onDidChangeTextEditorSelection.
      by rewrite Hec, Hother.
    + intros Hempty. unfold onDidChangeTextEditorSelection.
      rewrite Hec, Hempty. simpl. by rewrite orb_true_r.
    + intros first rest Hsame Hsel end_ moved c'.
      split; [|split; [|split; [|split; [|split]]]];
        try apply onDidChangeTextEditorSelection_same_session;
        subst c'; unfold onDidChangeTextEditorSelection;
        rewrite Hec, Hsame, Hsel; simpl.
      * rewrite refreshWebView_calls. simpl.
        rewrite <- !app_assoc. simpl. do 2 f_equal.
      * by rewrite refreshWebView_editorContext.
      * by rewrite refreshWebView_server.
      * by rewrite refreshWebView_configuration.
      * by rewrite refreshWebView_webView.
Qed.

Lemma C7_selection_sample :
  let c' := @onDidChangeTextEditorSelection Sample.collaborators
              Sample.cursor_moved Sample.viewing in
  calls (host c') =
    calls (host Sample.viewing) ++
    [ EditorUpdatePosition {| Vscode.line := 3; Vscode.character := 4 |};
      WebviewSetHtml 7%nat (frame_html "http://localhost:8080/#/3/0/1000");
      EditorRefresh; StatusBarUpdate; SlidesExplorerUpdate ].
Proof.
  destruct (C7_selection_changed_order (H := Sample.collaborators)
              Sample.cursor_moved Sample.viewing) as [_ Hbound].
  assert (Hec : editorContext Sample.viewing = Some (Sample.bind Sample.deck_md ∅))
    by (vm_compute; reflexivity).
  destruct (Hbound _ Hec) as (_ & _ & Hrun).
  destruct (Hrun _ [] eq_refl eq_refl) as (Hcalls & _).
  cbv zeta. rewrite Hcalls.
  refine (f_equal (app (calls (host Sample.viewing))) _).
  vm_compute. reflexivity.
Defined.

(** ** The effective configuration *)

Lemma spread_lookup (a b : Configuration) key :
  JS.spread a b !! key =
  match b !! key with
  | Some v => Some v
  | None => a !! key
  end.
Proof.
  unfold JS.spread. rewrite lookup_union.
  by destruct (b !! key), (a !! key).
Qed.

(** C8: the effective configuration is computed from the fields at each
    read: it is the base configuration with the front-matter options of the
    bound document written over it, key by key, when a Document Binding with
    front-matter options exists, and the base configuration alone otherwise.
    So a read after the base configuration was reloaded reads the reloaded
    one, and a read after a markdown editor became active reads the options
    of the new binding. *)
Theorem C8_configuration_recomputed `{Collaborators} (c : t) :
  (∀ key,
     configuration c !! key =
     match editorContext c with
     | Some ec =>
       if EditorContext.hasfrontConfig ec
       then match EditorContext.documentOptions ec !! key with
            | Some override => Some override
            | None => _configuration c !! key
            end
       else _configuration c !! key
     | None => _configuration c !! key
     end) ∧
  (∀ e, Vscode.affectsConfiguration e extensionId = true →
     _configuration (onDidChangeConfiguration e c) = settings (host c) ∧
     configuration (onDidChangeConfiguration e c) =
       configuration (with_configuration (settings (host c)) c)) ∧
  (∀ e, is_markdown (Some e) = true →
     let ec := newEditorContext e (getDocumentOptions (configuration c)) in
     configuration (onDidChangeActiveTextEditor (Some e) c) =
       if EditorContext.hasfrontConfig ec
       then JS.spread (_configuration c) (EditorContext.documentOptions ec)
       else _configuration c).
Proof.
  split; [|split].
  - intros key. unfold configuration.
    destruct (editorContext c) as [ec|]; [|done].
    destruct (EditorContext.hasfrontConfig ec); [|done].
    apply spread_lookup.
  - intros e Haffects. unfold onDidChangeConfiguration. by rewrite Haffects.
  - intros e Hmd ec. unfold onDidChangeActiveTextEditor. simpl in Hmd.
    rewrite Hmd. unfold configuration at 1. simpl.
    rewrite refreshWebView_editorContext, refreshWebView_configuration. done.
Qed.

Lemma C8_configuration_sample :
  configuration Sample.themed !! "theme" = Some (JS.Str "night") ∧
  configuration Sample.themed !! "transition" = Some (JS.Str "slide") ∧
  _configuration
    (@onDidChangeConfiguration Sample.collaborators Sample.settings_changed
       (with_host (with_settings ∅ (host Sample.themed)) Sample.themed)) = ∅.
Proof.
  destruct (C8_configuration_recomputed (H := Sample.collaborators) Sample.themed)
    as (Hkey & _ & _).
  destruct (C8_configuration_recomputed (H := Sample.collaborators)
              (with_host (with_settings ∅ (host Sample.themed)) Sample.themed))
    as (_ & Hreload & _).
  split; [|split].
  - rewrite Hkey. vm_compute. reflexivity.
  - rewrite Hkey. vm_compute. reflexivity.
  - exact (proj1 (Hreload Sample.settings_changed eq_refl)).
Defined.

(** ** Going to a slide, refreshing the surface *)

Lemma html_of_last w html trace :
  html_of w (trace ++ [WebviewSetHtml w html]) = Some html.
Proof.
  induction trace as [|k trace IH]; simpl.
  - by rewrite Nat.eqb_refl.
  - by rewrite IH.
Qed.

(** C9: with no Document Binding, [goToSlide(top, vertical)] is the refresh
    of the render surface and nothing more: no call reaches a binding, and
    the binding, the configuration, the server, the surface and the export
    session are as before; a bound surface is written the frame whose
    address is the text null. The call on the binding is made exactly when
    one exists, and then before the refresh. *)
Theorem C9_goToSlide_without_binding `{Collaborators}
    (topindex verticalIndex : Z) (c : t) :
  (editorContext c = None →
     let c' := goToSlide topindex verticalIndex c in
     c' = refreshWebView None c ∧
     calls (host c') =
       calls (host c) ++
       match webView c with
       | Some w => [WebviewSetHtml w (frame_html "null")]
       | None => []
       end ∧
     editorContext c' = None ∧
     _configuration c' = _configuration c ∧
     configuration c' = configuration c ∧
     server c' = server c ∧ webView c' = webView c ∧
     same_session c c') ∧
  (∀ ec, editorContext c = Some ec →
     let moved := with_editorContext
                    (Some (editorGoToSlide topindex verticalIndex ec)) c in
     let c' := goToSlide topindex verticalIndex c in
     calls (host c') =
       calls (host c) ++ [EditorGoToSlide topindex verticalIndex] ++ push moved ∧
     editorContext c' = Some (editorGoToSlide topindex verticalIndex ec)).
Proof.
  split.
  - intros Hnone c'. subst c'. unfold goToSlide. rewrite Hnone.
    split; [done|]. split; [|split; [|split; [|split; [|split; [|split]]]]].
    + rewrite refreshWebView_calls. f_equal. unfold push, getUri.
      rewrite Hnone. by destruct (RevealServer.isListening (server c)).
    + by rewrite refreshWebView_editorContext.
    + apply refreshWebView_configuration.
    + unfold configuration.
      by rewrite refreshWebView_editorContext, refreshWebView_configuration.
    + apply refreshWebView_server.
    + apply refreshWebView_webView.
    + apply refreshWebView_same_session.
  - intros ec Hec moved c'. subst c'. unfold goToSlide. rewrite Hec. split.
    + rewrite refreshWebView_calls. simpl. by rewrite <- app_assoc.
    + by rewrite refreshWebView_editorContext.
Qed.

Lemma C9_goToSlide_sample :
  let unbound := @step Sample.collaborators (CallRefreshWebView (Some 7%nat))
                   Sample.fresh in
  let c' := @goToSlide Sample.collaborators 2 1 unbound in
  editorContext c' = None ∧
  calls (host c') =
    calls (host unbound) ++ [WebviewSetHtml 7%nat (frame_html "null")].
Proof.
  intros unbound c'.
  destruct (C9_goToSlide_without_binding (H := Sample.collaborators) 2 1 unbound)
    as [Hnone _].
  destruct (Hnone eq_refl) as (_ & Hcalls & Hec & _).
  split; [exact Hec | exact Hcalls].
Defined.

(** C10: when a render surface is bound (the one passed in, or else the one
    kept) and [getUri()] is absent, [refreshWebView] still writes the
    surface: the content it writes, and the content the surface shows
    afterwards, is the style element, a line break, and the frame whose
    [src] attribute is the text null between double quotes, followed by the
    [frameBorder] and [style] attributes. The double quote is character 34
    and the line break character 10. *)
Theorem C10_refresh_writes_null (view : option Vscode.Webview) (c : t)
    (w : Vscode.Webview) :
  getUri true c = None →
  match view with Some v => Some v | None => webView c end = Some w →
  let c' := refreshWebView view c in
  let q := String "034"%char EmptyString in
  let html :=
    "<style>html, body, iframe { height: 100% }</style>" +:+
    String "010"%char EmptyString +:+
    "      <iframe src=" +:+ q +:+ "null" +:+ q +:+
    " frameBorder=" +:+ q +:+ "0" +:+ q +:+
    " style=" +:+ q +:+ "width: 100%; height: 100%" +:+ q +:+ " />" in
  JS.template (getUri true c) = "null" ∧
  calls (host c') = calls (host c) ++ [WebviewSetHtml w html] ∧
  html_of w (calls (host c')) = Some html ∧
  webView c' = Some w.
Proof.
  intros Huri Hview c' q html.
  assert (Hhtml : frame_html "null" = html) by reflexivity.
  assert (Hcalls : calls (host c') = calls (host c) ++ [WebviewSetHtml w html]).
  { rewrite <- Hhtml. subst c'. unfold refreshWebView. destruct view as [v|].
    - injection Hview as ->. simpl.
      change (getUri true (with_webView (Some w) c)) with (getUri true c).
      by rewrite Huri.
    - rewrite Hview. simpl. by rewrite Huri. }
  split; [by rewrite Huri|]. split; [done|]. split.
  - rewrite Hcalls. apply html_of_last.
  - subst c'. rewrite refreshWebView_webView. by destruct view.
Qed.

Lemma C10_refresh_sample :
  let c' := refreshWebView (Some 7%nat) Sample.fresh in
  let q := String "034"%char EmptyString in
  getUri true Sample.fresh = None ∧
  html_of 7%nat (calls (host c')) =
    Some ("<style>html, body, iframe { height: 100% }</style>" +:+
          String "010"%char EmptyString +:+
          "      <iframe src=" +:+ q +:+ "null" +:+ q +:+
          " frameBorder=" +:+ q +:+ "0" +:+ q +:+
          " style=" +:+ q +:+ "width: 100%; height: 100%" +:+ q +:+ " />").
Proof.
  intros c' q.
  destruct (C10_refresh_writes_null (Some 7%nat) Sample.fresh 7%nat
              eq_refl eq_refl) as (_ & _ & Hshown & _).
  split; [reflexivity | exact Hshown].
Defined.

(** * Further properties of the Container *)

(** ** What each event does to the binding, the surface and the trace *)

Section Steps.
Context `{Collaborators}.

Lemma refreshWebView_calls_view view c :
  calls (host (refreshWebView view c)) =
  calls (host c) ++
  push (match view with Some v => with_webView (Some v) c | None => c end).
Proof.
  destruct view as [v|]; [|apply refreshWebView_calls].
  unfold refreshWebView, push. simpl. done.
Qed.

Lemma refreshWebView_host_frame view c :
  promises (host (refreshWebView view c)) = promises (host c) ∧
  now (host (refreshWebView view c)) = now (host c) ∧
  settings (host (refreshWebView view c)) = settings (host c).
Proof.
  unfold refreshWebView. destruct view; simpl; [done|].
  by destruct (webView c).
Qed.

Lemma step_webView e c : webView (step e c) = surface_after e c.
Proof.
  destruct e; simpl; try done.
  - unfold onDidChangeTextEditorSelection.
    destruct (editorContext c); [|done]. destruct (_ || _); [done|].
    destruct (Vscode.selections event); [done|]. simpl.
    by rewrite refreshWebView_webView.
  - unfold onDidChangeActiveTextEditor. simpl. rewrite refreshWebView_webView.
    simpl. destruct editor as [e|]; [|done]. by destruct (String.eqb _ _).
  - unfold onDidChangeConfiguration. by destruct (negb _).
  - unfold startExport. destruct (exportPromise c); simpl.
    + destruct (webView c) eqn:Hw; [|done].
      by rewrite refreshWebView_webView.
    + destruct (webView c) eqn:Hw; [|done].
      by rewrite refreshWebView_webView.
  - unfold isInExport. destruct (exportPromise c); [|done].
    by destruct (endDebounce c).
  - unfold goToSlide. rewrite refreshWebView_webView.
    by destruct (editorContext c).
  - rewrite refreshWebView_webView. by destruct view.
  - unfold elapse. simpl. destruct (endDebounce c) as [d|]; [|done].
    destruct (Lodash.due _ d); [|done]. unfold endDebounceCallback. simpl.
    destruct (exportPromise c); [|done].
    by destruct (exportPromiseResolve c).
Qed.

Lemma step_is_bound e c : is_bound (step e c) = is_bound c || binds e.
Proof.
  unfold is_bound.
  destruct e; simpl; try (by rewrite orb_false_r).
  - unfold onDidChangeTextEditorSelection.
    destruct (editorContext c) as [ec|] eqn:Hec; [|by rewrite Hec].
    destruct (_ || _); [by rewrite Hec|].
    destruct (Vscode.selections event); [by rewrite Hec|]. simpl.
    by rewrite refreshWebView_editorContext.
  - unfold onDidChangeActiveTextEditor. simpl.
    rewrite refreshWebView_editorContext. simpl.
    destruct editor as [e|]; simpl; [|by rewrite orb_false_r].
    destruct (String.eqb _ _); simpl; [by rewrite orb_true_r|].
    by rewrite orb_false_r.
  - rewrite orb_false_r. unfold onDidChangeConfiguration. by destruct (negb _).
  - rewrite orb_false_r. unfold startExport.
    destruct (exportPromise c); simpl;
      (destruct (webView c) eqn:Hw; [|done]);
      by rewrite refreshWebView_editorContext.
  - rewrite orb_false_r. unfold isInExport.
    destruct (exportPromise c); [|done]. by destruct (endDebounce c).
  - rewrite orb_false_r. unfold goToSlide. rewrite refreshWebView_editorContext.
    destruct (editorContext c) eqn:Hec; simpl; by rewrite ?Hec.
  - rewrite orb_false_r. by rewrite refreshWebView_editorContext.
  - rewrite orb_false_r. unfold elapse. simpl.
    destruct (endDebounce c) as [d|]; [|done].
    destruct (Lodash.due _ d); [|done]. unfold endDebounceCallback. simpl.
    destruct (exportPromise c); [|done].
    by destruct (exportPromiseResolve c).
Qed.

End Steps.

Section Traces.
Context `{Collaborators}.

Lemma push_writes c :
  Forall (writes_to (webView c)) (push c) ∧
  registrations (push c) = 0%nat ∧
  (editorContext c = None → Forall writes_null (push c)).
Proof.
  unfold push. destruct (webView c) as [w|]; [|by repeat split].
  split; [by repeat constructor|]. split; [done|].
  intros Hnone. repeat constructor. simpl. unfold getUri. rewrite Hnone.
  by destruct (RevealServer.isListening (server c)).
Qed.

Lemma registrations_app l1 l2 :
  registrations (l1 ++ l2) = (registrations l1 + registrations l2)%nat.
Proof.
  induction l1 as [|k l1 IH]; [done|]. destruct k; simpl; by rewrite ?IH.
Qed.

Lemma onDidChangeActiveTextEditor_calls editor c :
  calls (host (onDidChangeActiveTextEditor editor c)) =
  calls (host c) ++ [ServerStart; ServerRefresh] ++
  push (with_server (refreshServer (start (server c)))
          (with_editorContext (binding_after editor c) c)) ++
  [StatusBarUpdate; SlidesExplorerUpdate].
Proof.
  unfold onDidChangeActiveTextEditor, binding_after, is_markdown.
  destruct editor as [e|]; [destruct (String.eqb _ _)|]; simpl;
    rewrite refreshWebView_calls; simpl; by rewrite <- !app_assoc.
Qed.

Lemma onDidChangeTextEditorSelection_calls event c :
  onDidChangeTextEditorSelection event c = c ∨
  ∃ ec first,
    editorContext c = Some ec ∧
    calls (host (onDidChangeTextEditorSelection event c)) =
      calls (host c) ++ [EditorUpdatePosition (Vscode.active first)] ++
      push (with_editorContext (Some (updatePosition (Vscode.active first) ec)) c) ++
      [EditorRefresh; StatusBarUpdate; SlidesExplorerUpdate].
Proof.
  unfold onDidChangeTextEditorSelection.
  destruct (editorContext c) as [ec|] eqn:Hec; [|by left].
  destruct (_ || _); [by left|].
  destruct (Vscode.selections event) as [|first rest]; [by left|].
  right. exists ec, first. split; [done|]. simpl.
  rewrite refreshWebView_calls. simpl. rewrite <- !app_assoc. done.
Qed.

Lemma startExport_calls c :
  calls (host (snd (startExport c))) =
  calls (host c) ++
  match webView c with
  | Some w => [WebviewSetHtml w (frame_html (JS.template (getUri true c)))]
  | None => [ExecuteCommand SHOW_REVEALJS]
  end.
Proof.
  unfold startExport.
  destruct (exportPromise c); simpl; destruct (webView c) eqn:Hw; simpl;
    try done; rewrite refreshWebView_calls; unfold push; simpl;
    by rewrite Hw.
Qed.

Lemma goToSlide_calls topindex verticalIndex c :
  calls (host (goToSlide topindex verticalIndex c)) =
  calls (host c) ++
  match editorContext c with
  | Some ec =>
    EditorGoToSlide topindex verticalIndex
      :: push (with_editorContext
                 (Some (editorGoToSlide topindex verticalIndex ec)) c)
  | None => push c
  end.
Proof.
  unfold goToSlide. rewrite refreshWebView_calls.
  destruct (editorContext c); simpl; [|done]. by rewrite <- app_assoc.
Qed.

(** The calls an event adds: they write no surface but the one held after
    the event, they never register the slide explorer, and while nothing is
    bound they write the frame of no address. *)
Lemma step_calls e c :
  ∃ added,
    calls (host (step e c)) = calls (host c) ++ added ∧
    Forall (writes_to (webView (step e c))) added ∧
    registrations added = 0%nat ∧
    (is_bound (step e c) = false → Forall writes_null added).
Proof.
  assert (Hnil : ∀ c', calls (host c') = calls (host c) →
    ∃ added, calls (host c') = calls (host c) ++ added ∧
      Forall (writes_to (webView c')) added ∧ registrations added = 0%nat ∧
      (is_bound c' = false → Forall writes_null added)).
  { intros c' Hc'. exists []. rewrite app_nil_r. by repeat split. }
  assert (Hpush : ∀ c' cp pre post,
    calls (host c') = calls (host c) ++ pre ++ push cp ++ post →
    webView cp = webView c' →
    (is_bound c' = false → editorContext cp = None) →
    Forall (writes_to (webView c')) (pre ++ post) →
    Forall writes_null (pre ++ post) →
    registrations (pre ++ post) = 0%nat →
    ∃ added, calls (host c') = calls (host c) ++ added ∧
      Forall (writes_to (webView c')) added ∧ registrations added = 0%nat ∧
      (is_bound c' = false → Forall writes_null added)).
  { intros c' cp pre post Hc' Hw Hb Hwr Hnull Hreg.
    exists (pre ++ push cp ++ post). split; [done|].
    destruct (push_writes cp) as (Hp1 & Hp2 & Hp3). rewrite Hw in Hp1.
    apply Forall_app in Hwr as [Hwr1 Hwr2].
    apply Forall_app in Hnull as [Hn1 Hn2].
    rewrite registrations_app in Hreg.
    split; [|split].
    - by repeat (apply Forall_app; split).
    - rewrite !registrations_app, Hp2. lia.
    - intros Hunbound. specialize (Hp3 (Hb Hunbound)).
      by repeat (apply Forall_app; split). }
  pose proof (step_webView e c) as Hsurface.
  pose proof (step_is_bound e c) as Hb.
  destruct e; unfold step, surface_after, binds in *;
    rewrite ?orb_false_r in Hb.
  - destruct (onDidChangeTextEditorSelection_calls event c)
      as [->|(ec & first & Hec & Hcalls)]; [by apply Hnil|].
    eapply (Hpush _ _ [_] [_; _; _]); [exact Hcalls|by rewrite Hsurface| |
      by repeat constructor..].
    intros Hunbound. rewrite Hunbound in Hb. unfold is_bound in Hb.
    rewrite Hec in Hb. done.
  - eapply (Hpush _ _ [_; _] [_; _]);
      [apply onDidChangeActiveTextEditor_calls|by rewrite Hsurface| |
       by repeat constructor..].
    intros Hunbound. rewrite Hunbound in Hb. symmetry in Hb.
    apply orb_false_elim in Hb as [Hb Hmd]. unfold is_bound in Hb.
    simpl. unfold binding_after. rewrite Hmd.
    destruct (editorContext c); [done|]. by destruct editor.
  - exists [ConsoleLog "onDidChangeTextDocument"]. by repeat constructor.
  - exists [ConsoleLog "onDidSaveTextDocument"]. by repeat constructor.
  - exists [ConsoleLog "onDidCloseTextDocument"]. by repeat constructor.
  - apply Hnil. unfold onDidChangeConfiguration. by destruct (negb _).
  - rewrite startExport_calls. rewrite Hsurface, Hb.
    destruct (webView c) as [w|] eqn:Hw.
    + eexists. split; [done|]. split; [by repeat constructor|].
      split; [done|]. intros Hunbound. repeat constructor. simpl.
      unfold is_bound in Hunbound. unfold getUri.
      destruct (editorContext c); [done|].
      by destruct (RevealServer.isListening (server c)).
    + eexists. split; [done|]. by repeat constructor.
  - apply Hnil. unfold isInExport. destruct (exportPromise c); [|done].
    by destruct (endDebounce c).
  - destruct (editorContext c) as [ec|] eqn:Hec.
    + eapply (Hpush _ _ [_] []).
      * rewrite goToSlide_calls, Hec. simpl. by rewrite app_nil_r.
      * by rewrite Hsurface.
      * rewrite Hb. unfold is_bound. by rewrite Hec.
      * by repeat constructor.
      * by repeat constructor.
      * done.
    + eapply (Hpush _ c [] []).
      * rewrite goToSlide_calls, Hec. simpl. by rewrite app_nil_r.
      * by rewrite Hsurface.
      * done.
      * constructor.
      * constructor.
      * done.
  - exists [ServerStop; StatusBarUpdate].
    split; [simpl; by rewrite <- app_assoc|]. by repeat constructor.
  - eapply (Hpush _ _ [] []).
    + rewrite refreshWebView_calls_view. simpl. by rewrite app_nil_r.
    + rewrite refreshWebView_webView. by destruct view.
    + intros Hunbound. unfold is_bound in Hunbound.
      rewrite refreshWebView_editorContext in Hunbound.
      destruct view; simpl; by destruct (editorContext c).
    + constructor.
    + constructor.
    + done.
  - apply Hnil. unfold elapse. simpl. destruct (endDebounce c) as [d|]; [|done].
    destruct (Lodash.due _ d); [|done]. unfold endDebounceCallback. simpl.
    destruct (exportPromise c); [|done].
    by destruct (exportPromiseResolve c).
  - by apply Hnil.
  - by apply Hnil.
Qed.

End Traces.

(** ** The export path *)

(** X1: the export path is the [exportHTMLPath] of the effective
    configuration when that value is truthy, and the directory [export] under
    the folder of the bound document otherwise: when the key is missing and
    when it is the empty string alike. A front-matter value of the bound
    document takes the place of the one of the settings, and with nothing
    bound the folder is the empty path. *)
Theorem X1_exportPath_resolution `{Collaborators} (c : t) :
  let fallback := JS.Str (path_join (rootDir c) "export") in
  (∀ v, configuration c !! "exportHTMLPath" = Some v →
        exportPath c = if JS.truthy v then v else fallback) ∧
  (configuration c !! "exportHTMLPath" = None → exportPath c = fallback) ∧
  (configuration c !! "exportHTMLPath" = Some (JS.Str EmptyString) →
   exportPath c = fallback) ∧
  (∀ ec v, editorContext c = Some ec →
     EditorContext.hasfrontConfig ec = true →
     EditorContext.documentOptions ec !! "exportHTMLPath" = Some v →
     JS.truthy v = true →
     exportPath c = v ∧ rootDir c = EditorContext.dirname ec) ∧
  (editorContext c = None →
   rootDir c = EmptyString ∧
   configuration c !! "exportHTMLPath" = _configuration c !! "exportHTMLPath").
Proof.
  intros fallback.
  assert (Hsome : ∀ v, configuration c !! "exportHTMLPath" = Some v →
            exportPath c = if JS.truthy v then v else fallback).
  { intros v Hv. unfold exportPath, JS.get. by rewrite Hv. }
  split; [exact Hsome|]. split; [|split; [|split]].
  - intros Hnone. unfold exportPath, JS.get. by rewrite Hnone.
  - intros Hempty. by rewrite (Hsome _ Hempty).
  - intros ec v Hec Hfront Hv Htruthy. split.
    + rewrite (Hsome v); [by rewrite Htruthy|].
      unfold configuration. rewrite Hec, Hfront, spread_lookup. by rewrite Hv.
    + unfold rootDir. by rewrite Hec.
  - intros Hnone. unfold rootDir, configuration. by rewrite Hnone.
Qed.

Lemma X1_exportPath_sample :
  @exportPath Sample.collaborators Sample.exported = JS.Str "/out" ∧
  @exportPath Sample.collaborators Sample.themed = JS.Str "/talks/export".
Proof.
  destruct (X1_exportPath_resolution (H := Sample.collaborators) Sample.exported)
    as (_ & _ & _ & Hfront & _).
  destruct (X1_exportPath_resolution (H := Sample.collaborators) Sample.themed)
    as (_ & Hmissing & _).
  split.
  - exact (proj1 (Hfront Sample.exported_deck (JS.Str "/out")
                    eq_refl eq_refl eq_refl eq_refl)).
  - rewrite Hmissing; [reflexivity|]. vm_compute. reflexivity.
Defined.

(** ** Reloading the base configuration *)

(** X2: a configuration change that does not affect the extension's own
    section leaves the Container as it is. One that does replaces the base
    configuration by the loaded settings and nothing else; handling the same
    event again changes nothing more, and an option the front matter of the
    bound document sets is still read from the front matter. *)
Theorem X2_configuration_reload `{Collaborators}
    (e : Vscode.ConfigurationChangeEvent) (c : t) :
  (Vscode.affectsConfiguration e extensionId = false →
   onDidChangeConfiguration e c = c) ∧
  (Vscode.affectsConfiguration e extensionId = true →
   onDidChangeConfiguration e c = with_configuration (settings (host c)) c) ∧
  onDidChangeConfiguration e (onDidChangeConfiguration e c) =
    onDidChangeConfiguration e c ∧
  host (onDidChangeConfiguration e c) = host c ∧
  same_session c (onDidChangeConfiguration e c) ∧
  (∀ ec key v, editorContext c = Some ec →
     EditorContext.hasfrontConfig ec = true →
     EditorContext.documentOptions ec !! key = Some v →
     configuration (onDidChangeConfiguration e c) !! key = Some v).
Proof.
  unfold onDidChangeConfiguration.
  destruct (Vscode.affectsConfiguration e extensionId) eqn:Haffects; simpl.
  - split; [done|]. split; [done|]. rewrite ?Haffects. simpl.
    split; [done|]. split; [done|]. split; [by repeat split|].
    intros ec key v Hec Hfront Hv. unfold configuration. simpl.
    rewrite Hec, Hfront, spread_lookup. by rewrite Hv.
  - split; [done|]. split; [done|]. rewrite ?Haffects. simpl.
    split; [done|]. split; [done|]. split; [by repeat split|].
    intros ec key v Hec Hfront Hv. unfold configuration.
    rewrite Hec, Hfront, spread_lookup. by rewrite Hv.
Qed.

Lemma X2_configuration_reload_sample :
  let c := with_host (with_settings ∅ (host Sample.themed)) Sample.themed in
  _configuration (@onDidChangeConfiguration Sample.collaborators
                    Sample.settings_changed c) = ∅ ∧
  configuration (@onDidChangeConfiguration Sample.collaborators
                   Sample.settings_changed c) !! "theme" =
    Some (JS.Str "night").
Proof.
  intros c.
  destruct (X2_configuration_reload (H := Sample.collaborators)
              Sample.settings_changed c) as (_ & Hreload & _ & _ & _ & Hfront).
  split.
  - rewrite (Hreload eq_refl). reflexivity.
  - exact (Hfront Sample.themed_deck "theme" (JS.Str "night")
             eq_refl eq_refl eq_refl).
Defined.

(** ** Stopping the server *)

Lemma html_of_app_quiet w trace added :
  Forall (writes_to None) added →
  html_of w (trace ++ added) = html_of w trace.
Proof.
  intros Hquiet. induction trace as [|k trace IH]; simpl.
  - induction added as [|k added IH]; [done|].
    apply Forall_cons in Hquiet as [Hk Hquiet]. simpl.
    rewrite (IH Hquiet). by destruct k.
  - by rewrite IH.
Qed.

(** X3: [stopServer] stops the server and then updates the status bar, and
    that is all: the binding, the configuration, the surface and the export
    session are as before (a pending export stays pending), and the surface
    is not refreshed, so it goes on showing what it showed. *)
Theorem X3_stopServer_frame `{Collaborators} (c : t) :
  calls (host (stopServer c)) = calls (host c) ++ [ServerStop; StatusBarUpdate] ∧
  server (stopServer c) = stop (server c) ∧
  editorContext (stopServer c) = editorContext c ∧
  _configuration (stopServer c) = _configuration c ∧
  webView (stopServer c) = webView c ∧
  same_session c (stopServer c) ∧
  (∀ w, html_of w (calls (host (stopServer c))) = html_of w (calls (host c))).
Proof.
  assert (Hcalls : calls (host (stopServer c)) =
                   calls (host c) ++ [ServerStop; StatusBarUpdate])
    by (simpl; by rewrite <- app_assoc).
  repeat split; try done.
  intros w. rewrite Hcalls. apply html_of_app_quiet. by repeat constructor.
Qed.

(** ** Before a document is bound *)

Section Unbound.
Context `{Collaborators}.

Lemma run_unbound es : ∀ c,
  is_bound c = false →
  forallb (λ e, negb (binds e)) es = true →
  is_bound (run es c) = false ∧
  ∃ added, calls (host (run es c)) = calls (host c) ++ added ∧
           Forall writes_null added.
Proof.
  induction es as [|e es IH]; intros c Hc Hes.
  - split; [done|]. exists []. by rewrite app_nil_r.
  - simpl in Hes. apply andb_prop in Hes as [He Hes].
    assert (Hstep : is_bound (step e c) = false).
    { rewrite step_is_bound, Hc. by destruct (binds e). }
    destruct (step_calls e c) as (added1 & Hcalls1 & _ & _ & Hnull1).
    destruct (IH (step e c) Hstep Hes) as (Hlast & added2 & Hcalls2 & Hnull2).
    split; [done|]. exists (added1 ++ added2). simpl. split.
    + by rewrite Hcalls2, Hcalls1, app_assoc.
    + apply Forall_app. split; [by apply Hnull1 | done].
Qed.

Lemma reachable_trace c :
  reachable c →
  registrations (calls (host c)) = 1%nat ∧
  (webView c = None → Forall (writes_to None) (calls (host c))).
Proof.
  induction 1 as [time cfg|e c _ [IHreg IHquiet]].
  - split; [done|]. intros _. by repeat constructor.
  - destruct (step_calls e c) as (added & -> & Hwrites & Hreg & _).
    split; [rewrite registrations_app; lia|].
    intros Hnone. rewrite Hnone in Hwrites.
    apply Forall_app. split; [|done]. apply IHquiet.
    rewrite step_webView in Hnone. unfold surface_after in Hnone.
    destruct e; try done. by destruct view.
Qed.

End Unbound.

(** X4: from its construction until a markdown editor becomes active, the
    Container has no Document Binding, whatever else happens: [slides] is
    empty, [slideCount] is 0, [isMarkdownFile] is false, the root directory
    is the empty path, there is no slide content, [getUri] is absent, the
    effective configuration is the base one, and every content written to a
    surface is the frame of no address. *)
Theorem X4_unbound_until_markdown `{Collaborators} (h : Host) (es : list Event) :
  forallb (λ e, negb (binds e)) es = true →
  let c := run es (constructor h) in
  editorContext c = None ∧
  slides c = [] ∧ slideCount c = 0%nat ∧ isMarkdownFile c = false ∧
  rootDir c = EmptyString ∧ slideContent c = None ∧
  (∀ withPosition, getUri withPosition c = None) ∧
  configuration c = _configuration c ∧
  ∃ added, calls (host c) = calls (host (constructor h)) ++ added ∧
           Forall writes_null added.
Proof.
  intros Hes c.
  destruct (run_unbound es (constructor h) eq_refl Hes) as (Hunbound & Htrace).
  fold c in Hunbound, Htrace. unfold is_bound in Hunbound.
  destruct (editorContext c) eqn:Hec; [done|].
  unfold slides, slideCount, isMarkdownFile, rootDir, slideContent, configuration.
  rewrite Hec. repeat split; try done.
  intros withPosition. unfold getUri. rewrite Hec.
  by destruct (negb _).
Qed.

Lemma X4_unbound_sample :
  let c := @run Sample.collaborators
             [CallRefreshWebView (Some 7%nat); CallGoToSlide 2 1;
              DidChangeActiveTextEditor (Some Sample.notes_txt); CallStartExport]
             (@constructor Sample.collaborators (boot 1000 ∅)) in
  slides c = [] ∧ getUri true c = None.
Proof.
  intros c.
  destruct (X4_unbound_until_markdown (H := Sample.collaborators)
              (boot 1000 ∅)
              [CallRefreshWebView (Some 7%nat); CallGoToSlide 2 1;
               DidChangeActiveTextEditor (Some Sample.notes_txt); CallStartExport]
              eq_refl) as (_ & Hslides & _ & _ & _ & _ & Huri & _).
  split; [exact Hslides | exact (Huri true)].
Defined.

(** ** The binding and the surface are never let go *)

(** X5: an event leaves the Container bound exactly when it was bound
    before or the event is a markdown editor becoming active, and the
    surface it holds afterwards is the one passed to [refreshWebView] if the
    event is such a call with a surface, and the one held before otherwise.
    So no sequence of events unbinds a bound Container or detaches an
    attached surface. *)
Theorem X5_binding_and_surface_kept `{Collaborators} (c : t) :
  (∀ e, is_bound (step e c) = is_bound c || binds e) ∧
  (∀ e, webView (step e c) = surface_after e c) ∧
  (∀ es, is_bound c = true → is_bound (run es c) = true) ∧
  (∀ es w, webView c = Some w → ∃ w', webView (run es c) = Some w').
Proof.
  split; [intros e; apply step_is_bound|].
  split; [intros e; apply step_webView|]. split.
  - intros es. revert c. induction es as [|e es IH]; intros c Hc; [done|].
    simpl. apply IH. by rewrite step_is_bound, Hc.
  - intros es. revert c. induction es as [|e es IH]; intros c w Hw; [by exists w|].
    simpl.
    assert (Hstep : ∃ w', webView (step e c) = Some w').
    { rewrite step_webView. unfold surface_after.
      destruct e; try (by exists w). destruct view as [v|]; [by exists v|by exists w]. }
    destruct Hstep as [w' Hw']. by apply (IH _ w').
Qed.

Lemma X5_kept_sample :
  is_bound (@run Sample.collaborators
              [DidChangeActiveTextEditor None; CallStopServer;
               DidChangeActiveTextEditor (Some Sample.notes_txt)]
              Sample.viewing) = true.
Proof.
  destruct (X5_binding_and_surface_kept (H := Sample.collaborators) Sample.viewing)
    as (_ & _ & Hbound & _).
  apply Hbound. vm_compute. reflexivity.
Defined.

(** ** What is written to the surface, and when *)

(** X6: whatever the event, a content the Container writes goes to the
    surface it holds after that event, never to one it held before; and as
    long as no surface has been attached nothing has been written at all. *)
Theorem X6_writes_only_held_surface `{Collaborators} (c : t) :
  (∀ e, ∃ added,
     calls (host (step e c)) = calls (host c) ++ added ∧
     Forall (writes_to (webView (step e c))) added) ∧
  (reachable c → webView c = None →
   ∀ w, html_of w (calls (host c)) = None).
Proof.
  split.
  - intros e. destruct (step_calls e c) as (added & Hcalls & Hwrites & _).
    by exists added.
  - intros Hreach Hnone w.
    destruct (reachable_trace c Hreach) as [_ Hquiet].
    apply (html_of_app_quiet w [] _ (Hquiet Hnone)).
Qed.

Lemma X6_nothing_written_sample :
  html_of 7%nat (calls (host Sample.exporting)) = None.
Proof.
  destruct (X6_writes_only_held_surface (H := Sample.collaborators)
              Sample.exporting) as [_ Hnone].
  apply (Hnone sample_exporting_reachable). vm_compute. reflexivity.
Defined.

(** X7: [startExport] either refreshes the surface it holds, writing it the
    frame of the current address, or, holding none, asks the host to show
    the presentation; it makes no other call, and it leaves the binding, the
    configuration, the server and the surface as they were. *)
Theorem X7_startExport_refreshes_or_shows `{Collaborators} (c : t) :
  calls (host (snd (startExport c))) =
    calls (host c) ++
    match webView c with
    | Some w => [WebviewSetHtml w (frame_html (JS.template (getUri true c)))]
    | None => [ExecuteCommand SHOW_REVEALJS]
    end ∧
  same_document c (snd (startExport c)).
Proof.
  split; [apply startExport_calls|].
  unfold same_document, startExport.
  destruct (exportPromise c); simpl; destruct (webView c) eqn:Hw; simpl;
    rewrite ?refreshWebView_editorContext, ?refreshWebView_configuration,
            ?refreshWebView_server, ?refreshWebView_webView; by simpl.
Qed.

(** X8: when the active editor changes, whatever the editor, the handler
    starts the server, refreshes it, writes the surface it holds, updates
    the status bar and updates the slide explorer, in this order; the
    address written is the one of the started and refreshed server and of
    the binding the handler leaves. *)
Theorem X8_active_editor_order `{Collaborators}
    (editor : option Vscode.TextEditor) (c : t) :
  let c' := onDidChangeActiveTextEditor editor c in
  calls (host c') =
    calls (host c) ++ [ServerStart; ServerRefresh] ++
    push (with_server (refreshServer (start (server c)))
            (with_editorContext (binding_after editor c) c)) ++
    [StatusBarUpdate; SlidesExplorerUpdate] ∧
  editorContext c' = binding_after editor c ∧
  server c' = refreshServer (start (server c)) ∧
  same_session c c'.
Proof.
  intros c'. split; [apply onDidChangeActiveTextEditor_calls|].
  split; [|split; [|apply onDidChangeActiveTextEditor_same_session]].
  - subst c'. unfold onDidChangeActiveTextEditor, binding_after, is_markdown.
    destruct editor as [e|]; [destruct (String.eqb _ _)|]; simpl;
      by rewrite refreshWebView_editorContext.
  - subst c'. unfold onDidChangeActiveTextEditor.
    destruct editor as [e|]; [destruct (String.eqb _ _)|]; simpl;
      by rewrite refreshWebView_server.
Qed.

(** X9: the slide explorer is registered once, when the Container is
    constructed, and never again. *)
Theorem X9_explorer_registered_once `{Collaborators} (c : t) :
  reachable c → registrations (calls (host c)) = 1%nat.
Proof. intros Hreach. by destruct (reachable_trace c Hreach). Qed.

Lemma X9_registered_once_sample :
  registrations (calls (host Sample.waiting)) = 1%nat.
Proof.
  exact (X9_explorer_registered_once (H := Sample.collaborators)
           Sample.waiting sample_waiting_reachable).
Defined.

(** ** More on the export session *)

Lemma sample_resolved_reachable : @reachable Sample.collaborators Sample.resolved.
Proof.
  unfold Sample.resolved. apply reachable_step, sample_waiting_reachable.
Qed.

Lemma sample_waiting_pending :
  pending_since 0%nat 1000%N Sample.waiting.
Proof. repeat split; vm_compute; reflexivity. Qed.

Section MoreExport.
Context `{Collaborators}.

Lemma startExport_same_document c : same_document c (snd (startExport c)).
Proof.
  unfold same_document, startExport.
  destruct (exportPromise c); simpl; destruct (webView c) eqn:Hw; simpl;
    rewrite ?refreshWebView_editorContext, ?refreshWebView_configuration,
            ?refreshWebView_server, ?refreshWebView_webView; by simpl.
Qed.

Lemma isInExport_same_document c :
  same_document c (snd (isInExport c)) ∧ host (snd (isInExport c)) = host c.
Proof.
  unfold same_document, isInExport.
  destruct (exportPromise c); [|done]. by destruct (endDebounce c).
Qed.

Lemma elapse_same_document dt c :
  same_document c (elapse dt c) ∧
  settings (host (elapse dt c)) = settings (host c) ∧
  calls (host (elapse dt c)) = calls (host c) ∧
  now (host (elapse dt c)) = (now (host c) + dt)%N.
Proof.
  unfold same_document, elapse. simpl.
  destruct (endDebounce c) as [d|]; [|done].
  destruct (Lodash.due _ d); [|done]. unfold endDebounceCallback. simpl.
  destruct (exportPromise c); [|done].
  by destruct (exportPromiseResolve c).
Qed.

End MoreExport.

(** X10: a poll of [isInExport] makes no call, settles no promise and
    changes neither the binding, the configuration, the server nor the
    surface; a second poll in the same millisecond answers the same and
    changes nothing more. *)
Theorem X10_poll_idempotent (c : t) :
  isInExport (snd (isInExport c)) = isInExport c ∧
  same_document c (snd (isInExport c)) ∧
  host (snd (isInExport c)) = host c ∧
  exportPromise (snd (isInExport c)) = exportPromise c.
Proof.
  split; [|split; [apply isInExport_same_document|
           split; [apply isInExport_same_document|]]].
  - unfold isInExport.
    destruct (exportPromise c) as [p|] eqn:Hp; simpl; [|by rewrite Hp].
    destruct (endDebounce c) as [d|] eqn:Hd; simpl; rewrite Hp; simpl;
      rewrite ?Hd, ?Hp; reflexivity.
  - unfold isInExport. destruct (exportPromise c) eqn:Hp; [|done].
    by destruct (endDebounce c).
Qed.

(** X11: once an export promise is fulfilled it keeps its value whatever
    happens afterwards, and no later call of [startExport] returns that
    promise again: a new export gets a new future. *)
Theorem X11_export_result_final `{Collaborators}
    (c : t) (p : JS.ref) (v : JS.value) :
  reachable c →
  promises (host c) !! p = Some (JS.Fulfilled v) →
  ∀ es,
    promises (host (run es c)) !! p = Some (JS.Fulfilled v) ∧
    fst (startExport (run es c)) ≠ Some p.
Proof.
  intros Hreach Hp es.
  pose proof (run_keeps_fulfilled es c p v Hp) as Hkept.
  split; [done|].
  pose proof (reachable_session_ok _ (run_reachable es c Hreach)) as Hok.
  rewrite startExport_returns_field.
  destruct (exportPromise (run es c)) as [q|] eqn:Hq.
  - destruct (startExport_join _ q Hq) as (-> & _). rewrite Hq.
    intros [= ->]. destruct (ok_pending _ Hok p Hq) as (Hpending & _).
    congruence.
  - destruct (startExport_open _ Hq) as (-> & _).
    intros [= Hlen]. apply lookup_lt_Some in Hkept. lia.
Qed.

Lemma X11_result_final_sample :
  let c := @run Sample.collaborators
             [CallGoToSlide 3 0; Elapse 5000; CallStartExport] Sample.resolved in
  promises (host c) !! 0%nat = Some (JS.Fulfilled (JS.Str "/talks/export")) ∧
  fst (@startExport Sample.collaborators c) ≠ Some 0%nat.
Proof.
  intros c.
  assert (Hdone : promises (host Sample.resolved) !! 0%nat =
                  Some (JS.Fulfilled (JS.Str "/talks/export")))
    by (vm_compute; reflexivity).
  exact (X11_export_result_final (H := Sample.collaborators) Sample.resolved
           0%nat _ sample_resolved_reachable Hdone
           [CallGoToSlide 3 0; Elapse 5000; CallStartExport]).
Defined.

(** X12: [startExport] makes the debounced function without calling it, so
    the 800 ms window opens only at the first poll of [isInExport]: as long
    as no poll is made, no amount of time and no other event resolves the
    export. *)
Theorem X12_unpolled_export_never_resolves `{Collaborators}
    (c : t) (es : list Event) :
  exportPromise c = None →
  forallb (λ e, negb (is_poll e)) es = true →
  let p := length (promises (host c)) in
  let c' := run es (snd (startExport c)) in
  fst (startExport c) = Some p ∧
  exportPromise c' = Some p ∧
  promises (host c') !! p = Some JS.Pending.
Proof.
  intros Hidle Hquiet p c'.
  pose proof (startExport_unpolled c Hidle) as Hun.
  destruct (unpolled_stays_pending es _ _ Hun Hquiet) as (Hp & Hheap & _).
  split; [|done]. rewrite startExport_returns_field.
  by destruct (startExport_open c Hidle) as (-> & _).
Qed.

Lemma X12_unpolled_sample :
  let c' := @run Sample.collaborators
              [Elapse 5000; CallGoToSlide 1 0; Elapse 100000]
              (snd (@startExport Sample.collaborators Sample.bound)) in
  exportPromise c' = Some 0%nat ∧
  promises (host c') !! 0%nat = Some JS.Pending.
Proof.
  intros c'.
  assert (Hidle : exportPromise Sample.bound = None) by (vm_compute; reflexivity).
  destruct (X12_unpolled_export_never_resolves (H := Sample.collaborators)
              Sample.bound [Elapse 5000; CallGoToSlide 1 0; Elapse 100000]
              Hidle eq_refl) as (_ & Hp & Hheap).
  split; [exact Hp | exact Hheap].
Defined.

(** X13: the export path is read when the debounced callback runs, not when
    the export starts: if the settings are edited and reloaded while the
    export is pending, the promise is fulfilled with the export path of the
    reloaded configuration. *)
Theorem X13_export_path_read_when_resolved `{Collaborators}
    (c : t) (p : JS.ref) (last dt : N) (cfg : Configuration)
    (e : Vscode.ConfigurationChangeEvent) :
  pending_since p last c →
  Vscode.affectsConfiguration e extensionId = true →
  (last + 800 ≤ now (host c) + dt)%N →
  promises (host (run [SettingsEdited cfg; DidChangeConfiguration e; Elapse dt] c))
    !! p = Some (JS.Fulfilled (exportPath (with_configuration cfg c))).
Proof.
  intros Hpending Haffects Hdt.
  pose proof (step_pending_since (SettingsEdited cfg) c p last Hpending)
    as [H1 Hnow1].
  pose proof (step_pending_since (DidChangeConfiguration e) _ p last H1)
    as [H2 Hnow2].
  pose proof (step_pending_since (Elapse dt) _ p last H2) as H3.
  rewrite Hnow2, Hnow1 in H3.
  destruct (N.ltb_spec (now (host c) + dt) (last + 800)); [lia|].
  change (run [SettingsEdited cfg; DidChangeConfiguration e; Elapse dt] c)
    with (step (Elapse dt)
            (step (DidChangeConfiguration e) (step (SettingsEdited cfg) c))).
  rewrite H3. do 2 f_equal.
  unfold step, onDidChangeConfiguration. simpl. by rewrite Haffects.
Qed.

Lemma X13_late_path_sample :
  promises (host (@run Sample.collaborators
                    [SettingsEdited Sample.late_settings;
                     DidChangeConfiguration Sample.settings_changed;
                     Elapse 800] Sample.waiting)) !! 0%nat =
  Some (JS.Fulfilled (JS.Str "/late")).
Proof.
  pose proof (X13_export_path_read_when_resolved (H := Sample.collaborators)
                Sample.waiting 0%nat 1000%N 800%N Sample.late_settings
                Sample.settings_changed sample_waiting_pending eq_refl) as Hlate.
  assert (Hnow : now (host Sample.waiting) = 1000%N) by (vm_compute; reflexivity).
  rewrite Hnow in Hlate. specialize (Hlate ltac:(lia)).
  assert (Hpath : @exportPath Sample.collaborators
                    (with_configuration Sample.late_settings Sample.waiting) =
                  JS.Str "/late") by (vm_compute; reflexivity).
  rewrite Hpath in Hlate. exact Hlate.
Defined.

(** X14: the events of the editor and of the host never touch the export
    session, the promises or the clock, and the events of the export
    protocol ([startExport], a poll of [isInExport], the passing of time)
    never touch the binding, the base configuration, the server or the
    surface held. *)
Theorem X14_session_and_document_separate `{Collaborators} (e : Event) (c : t) :
  (touches_session e = false → same_session c (step e c)) ∧
  (touches_session e = true → same_document c (step e c)).
Proof.
  split; [apply step_same_session|].
  destruct e; try discriminate; intros _; simpl.
  - apply startExport_same_document.
  - apply isInExport_same_document.
  - apply elapse_same_document.
Qed.

Lemma X14_separate_sample :
  exportPromise (@step Sample.collaborators CallStopServer Sample.waiting) =
    Some 0%nat ∧
  editorContext (@step Sample.collaborators (Elapse 800) Sample.waiting) =
    editorContext Sample.waiting.
Proof.
  destruct (X14_session_and_document_separate (H := Sample.collaborators)
              CallStopServer Sample.waiting) as [Hsession _].
  destruct (X14_session_and_document_separate (H := Sample.collaborators)
              (Elapse 800) Sample.waiting) as [_ Hdocument].
  split.
  - rewrite (proj1 (Hsession eq_refl)). vm_compute. reflexivity.
  - exact (proj1 (Hdocument eq_refl)).
Defined.

(** ** Addresses *)

Lemma append_inv_head s a b : s +:+ a = s +:+ b → a = b.
Proof.
  induction s as [|ch s IH]; simpl; [done|].
  intros [= Heq]. by apply IH.
Qed.

(** X15: the timestamp makes every address new: with the same server and
    the same binding, two calls of [getUri(true)] at different milliseconds
    return different addresses, whereas [getUri(false)] does not depend on
    the clock at all. *)
Theorem X15_timestamp_distinguishes_addresses (c c' : t) :
  server c' = server c →
  editorContext c' = editorContext c →
  (getUri true c ≠ None →
   now (host c') ≠ now (host c) → getUri true c' ≠ getUri true c) ∧
  getUri false c' = getUri false c.
Proof.
  intros Hserver Hec. unfold getUri. rewrite Hserver, Hec.
  split; [|done].
  destruct (negb _); [done|]. destruct (editorContext c) as [ec|]; [|done].
  intros _ Hnow [= Heq]. apply Hnow.
  do 6 apply append_inv_head in Heq.
  unfold JS.template_nat in Heq. by apply (inj pretty) in Heq.
Qed.

Lemma X15_timestamp_sample :
  getUri true (@elapse Sample.collaborators 1 Sample.bound) ≠
  getUri true Sample.bound.
Proof.
  destruct (X15_timestamp_distinguishes_addresses Sample.bound
              (@elapse Sample.collaborators 1 Sample.bound) eq_refl eq_refl)
    as [Hfresh _].
  apply Hfresh; vm_compute; congruence.
Defined.

(** X16: with a binding and a listening server, [goToSlide] delegates to the
    binding first and refreshes the surface after: the address written to
    the surface is the one [getUri(true)] returns right after the call, the
    address of the position the binding has after the delegation. *)
Theorem X16_goToSlide_then_getUri `{Collaborators}
    (topindex verticalIndex : Z) (c : t) (ec : EditorContext.t) :
  editorContext c = Some ec →
  RevealServer.isListening (server c) = true →
  let slidepos := EditorContext.position
                    (editorGoToSlide topindex verticalIndex ec) in
  let address := JS.template (RevealServer.uri (server c)) +:+
                 uri_fragment (SlidePosition.horizontal slidepos)
                   (SlidePosition.vertical slidepos) (now (host c)) in
  let c' := goToSlide topindex verticalIndex c in
  getUri true c' = Some address ∧
  calls (host c') =
    calls (host c) ++
    EditorGoToSlide topindex verticalIndex ::
    match webView c with
    | Some w => [WebviewSetHtml w (frame_html address)]
    | None => []
    end.
Proof.
  intros Hec Hlisten slidepos address c'. subst c'. split.
  - unfold getUri, goToSlide.
    rewrite refreshWebView_server, refreshWebView_editorContext.
    destruct (refreshWebView_host_frame None
                (match editorContext c with
                 | Some ec0 =>
                   with_editorContext
                     (Some (editorGoToSlide topindex verticalIndex ec0))
                     (log (EditorGoToSlide topindex verticalIndex) c)
                 | None => c
                 end)) as (_ & -> & _).
    rewrite Hec. simpl. by rewrite Hlisten.
  - rewrite goToSlide_calls, Hec. do 2 f_equal.
    unfold push, getUri. simpl. by rewrite Hlisten.
Qed.

Lemma X16_goToSlide_sample :
  getUri true (@goToSlide Sample.collaborators 2 1 Sample.viewing) =
  Some "http://localhost:8080/#/2/1/1000".
Proof.
  assert (Hec : editorContext Sample.viewing = Some (Sample.bind Sample.deck_md ∅))
    by (vm_compute; reflexivity).
  assert (Hlisten : RevealServer.isListening (server Sample.viewing) = true)
    by (vm_compute; reflexivity).
  destruct (X16_goToSlide_then_getUri (H := Sample.collaborators) 2 1
              Sample.viewing _ Hec Hlisten) as [Huri _].
  rewrite Huri. vm_compute. reflexivity.
Defined.

(** ** Time *)

Lemma due_later a b d time :
  Lodash.due (time + a) d = true → Lodash.due (time + a + b) d = true.
Proof.
  unfold Lodash.due. destruct (Lodash.lastCallTime d) as [t|]; [|done].
  intros Hdue. apply N.leb_le in Hdue. apply N.leb_le. lia.
Qed.

(** X17: the debounced callback runs once, when the window closes, however
    the waiting is cut: letting [a] milliseconds pass and then [b] leaves the
    Container as letting [a + b] pass at once does. *)
Theorem X17_elapse_additive `{Collaborators} (a b : N) (c : t) :
  elapse b (elapse a c) = elapse (a + b) c.
Proof.
  unfold elapse. simpl. rewrite (N.add_assoc (now (host c)) a b).
  destruct (endDebounce c) as [d|] eqn:Hd; simpl; [|by rewrite Hd].
  destruct (Lodash.due (now (host c) + a) d) eqn:Hdue.
  - rewrite (due_later a b d _ Hdue).
    unfold endDebounceCallback. simpl.
    destruct (exportPromise c) as [p|] eqn:Hp; simpl.
    + destruct (exportPromiseResolve c) as [r|] eqn:Hr; simpl; [done|].
      rewrite Hd, (due_later a b d _ Hdue). simpl. by rewrite Hp, Hr.
    + rewrite Hd, (due_later a b d _ Hdue). simpl. by rewrite Hp.
  - simpl. by rewrite Hd.
Qed.

(** ** What a surface shows after a refresh *)

Lemma html_of_app_other w w' html trace :
  w' ≠ w →
  html_of w' (trace ++ [WebviewSetHtml w html]) = html_of w' trace.
Proof.
  intros Hne. induction trace as [|k trace IH]; simpl.
  - destruct (Nat.eqb_spec w' w); [done|done].
  - by rewrite IH.
Qed.

(** X18: after [refreshWebView(view)] the surface held (the one passed in,
    or else the one kept) shows the frame of the current address, and every
    other surface shows what it showed before: a surface that was replaced
    is not written again. With no surface held nothing is written. *)
Theorem X18_refresh_shows_current_address
    (view : option Vscode.Webview) (c : t) :
  let held := match view with Some v => Some v | None => webView c end in
  let c' := refreshWebView view c in
  webView c' = held ∧
  (∀ w, held = Some w →
     html_of w (calls (host c')) =
       Some (frame_html (JS.template (getUri true c))) ∧
     ∀ w', w' ≠ w → html_of w' (calls (host c')) = html_of w' (calls (host c))) ∧
  (held = None → calls (host c') = calls (host c)).
Proof.
  intros held c'. subst held c'.
  split; [apply refreshWebView_webView|].
  unfold refreshWebView. destruct view as [v|]; simpl.
  - split; [|done]. intros w [= <-].
    change (getUri true (with_webView (Some v) c)) with (getUri true c).
    split; [apply html_of_last|]. intros w' Hne. by apply html_of_app_other.
  - destruct (webView c) as [w0|] eqn:Hw; simpl.
    + split; [|done]. intros w [= <-].
      split; [apply html_of_last|]. intros w' Hne. by apply html_of_app_other.
    + by split.
Qed.

Lemma X18_refresh_sample :
  let c' := refreshWebView (Some 8%nat) Sample.viewing in
  html_of 8%nat (calls (host c')) =
    Some (frame_html "http://localhost:8080/#/0/0/1000") ∧
  html_of 7%nat (calls (host c')) = html_of 7%nat (calls (host Sample.viewing)).
Proof.
  intros c'.
  destruct (X18_refresh_shows_current_address (Some 8%nat) Sample.viewing)
    as (_ & Hheld & _).
  destruct (Hheld 8%nat eq_refl) as [Hshown Hother]. subst c'.
  split.
  - rewrite Hshown. vm_compute. reflexivity.
  - apply Hother. discriminate.
Defined.
